(** * Educational image service: resolver, fetch cache and request handler

    A shallow embedding of [app.py] (the Flask image service) and the
    properties of its three working parts:

    - [find_relevant_images]: the keyword resolver over the static catalog
      [EDUCATIONAL_IMAGES];
    - [download_image]: the fetch-or-reuse operation over the process-wide
      dictionary [image_cache];
    - [fetch_image]: the handler of [POST /fetch_image].

    Conventions of the embedding.

    - A Python [str] is a [string] whose characters are the code points
      0..255; on that range [str.lower], [str.encode] (UTF-8) and the [in]
      operator are the functions [lower], [encode] and [str_in] below. Text
      with code points above 255 is outside the embedding (among them the
      few, such as U+212A, that [str.lower] maps to an ASCII letter).
    - [bytes] are [list byte].
    - Python values whose type the code does not fix (the decoded request
      body and its fields) are [pyval].
    - An exception is an [exn] value carrying its class name and [str(e)];
      every exception of the model derives from Python's [Exception] class
      (interpreter exits and keyboard interrupts are not modelled).
    - The effects are explicit: a computation is a function from the [world]
      (cache, network log, console) to a result and the next [world]. The
      network and the console are the environment: what a request is answered
      and whether a printed line is accepted are parameters, and both can
      raise.
    - Operations run one after another; interleavings of requests served by
      several threads are not part of the embedding. *)

From Stdlib Require Import ZArith NArith Ascii String List Strings.Byte Floats.SpecFloat.
From Stdlib Require Import DecimalString.
From stdpp Require Import base tactics option gmap strings list fin_maps.

Local Open Scope Z_scope.

(** ** Strings *)

Module Str.

(** [str.lower] on one code point below 256: the ASCII capitals and the
    Latin-1 capitals (all of 0xC0..0xDE but the multiplication sign 0xD7)
    move up by 32, everything else is unchanged. *)
Definition is_upper (c : ascii) : bool :=
  let n := N_of_ascii c in
  ((65 <=? n) && (n <=? 90) || (192 <=? n) && (n <=? 222) && negb (n =? 215))%N.

Definition lower_char (c : ascii) : ascii :=
  if is_upper c then ascii_of_N (N_of_ascii c + 32) else c.

Fixpoint lower (s : string) : string :=
  match s with
  | EmptyString => EmptyString
  | String c t => String (lower_char c) (lower t)
  end.

(** [needle in hay]: some suffix of [hay] starts with [needle]. *)
Fixpoint str_in (needle hay : string) : bool :=
  if String.prefix needle hay then true
  else match hay with
       | EmptyString => false
       | String _ t => str_in needle t
       end.

(** [url.encode()]: UTF-8 of code points below 256. *)
Definition encode_char (c : ascii) : list byte :=
  let n := N_of_ascii c in
  if (n <? 128)%N then [byte_of_ascii c]
  else match Byte.of_N (192 + N.shiftr n 6), Byte.of_N (128 + N.land n 63) with
       | Some hi, Some lo => [hi; lo]
       | _, _ => []
       end.

Fixpoint encode (s : string) : list byte :=
  match s with
  | EmptyString => []
  | String c t => encode_char c ++ encode t
  end.

(** The reading of "contains the keyword in any letter case": a character
    matches a keyword letter when it is that letter or its capital. *)
Definition is_ascii_lower (k : ascii) : bool :=
  let n := N_of_ascii k in ((97 <=? n) && (n <=? 122))%N.

Definition case_variant (c k : ascii) : Prop :=
  c = k \/ (is_ascii_lower k = true /\ (N_of_ascii c + 32 = N_of_ascii k)%N).

Fixpoint case_variant_str (s kw : string) : Prop :=
  match s, kw with
  | EmptyString, EmptyString => True
  | String c s', String k kw' => case_variant c k /\ case_variant_str s' kw'
  | _, _ => False
  end.

Definition contains_ci (kw q : string) : Prop :=
  exists pre mid post, q = pre +:+ mid +:+ post /\ case_variant_str mid kw.

(** A keyword of small ASCII letters only. *)
Fixpoint small_letters (kw : string) : bool :=
  match kw with
  | EmptyString => true
  | String k t => is_ascii_lower k && small_letters t
  end.

End Str.

(** ** Exceptions and results *)

Record exn := Exn { exn_class : string; exn_str : string }.

Inductive result (A : Type) : Type :=
  | Ok (a : A)
  | Raise (e : exn).
Arguments Ok {A} a.
Arguments Raise {A} e.

Definition rbind {A B} (r : result A) (k : A -> result B) : result B :=
  match r with
  | Ok a => k a
  | Raise e => Raise e
  end.

(** ** Python values of unknown type *)

Set Warnings "-register-all".


Inductive pyval :=
  | PyNone
  | PyBool (b : bool)
  | PyInt (z : Z)
  | PyFloat (f : spec_float)
  | PyStr (s : string)
  | PyList (l : list pyval)
  | PyDict (d : list (string * pyval)).

Definition type_name (v : pyval) : string :=
  match v with
  | PyNone => "NoneType"
  | PyBool _ => "bool"
  | PyInt _ => "int"
  | PyFloat _ => "float"
  | PyStr _ => "str"
  | PyList _ => "list"
  | PyDict _ => "dict"
  end.

(** [bool(v)]. *)
Definition truthy (v : pyval) : bool :=
  match v with
  | PyNone => false
  | PyBool b => b
  | PyInt z => negb (z =? 0)
  | PyFloat f => match f with S754_zero _ => false | _ => true end
  | PyStr s => negb (String.eqb s "")
  | PyList l => match l with [] => false | _ => true end
  | PyDict d => match d with [] => false | _ => true end
  end.

Definition AttributeError (v : pyval) (attr : string) : exn :=
  Exn "AttributeError"
      ("'" +:+ type_name v +:+ "' object has no attribute '" +:+ attr +:+ "'").

(** [v.lower()]. *)
Definition py_lower (v : pyval) : result string :=
  match v with
  | PyStr s => Ok (Str.lower s)
  | _ => Raise (AttributeError v "lower")
  end.

Fixpoint assoc {A} (k : string) (d : list (string * A)) : option A :=
  match d with
  | [] => None
  | (k', v) :: t => if String.eqb k k' then Some v else assoc k t
  end.

(** [v.get(key, default)]. *)
Definition py_get (v : pyval) (key : string) (default : pyval) : result pyval :=
  match v with
  | PyDict d => Ok (match assoc key d with Some x => x | None => default end)
  | _ => Raise (AttributeError v "get")
  end.

(** ** The catalog *)

Record ImageEntry := {
  url : string;
  title : string;
  caption : string;
  alt_text : string
}.

Definition romeo_juliet_dicksee : ImageEntry := {|
  url := "https://upload.wikimedia.org/wikipedia/commons/thumb/e/e6/DickseeRomeoandJuliet.jpg/400px-DickseeRomeoandJuliet.jpg";
  title := "Romeo and Juliet by Frank Dicksee";
  caption := "Romeo and Juliet by Frank Dicksee (1884) - Public Domain";
  alt_text := "Famous painting of Romeo and Juliet embracing" |}.

Definition romeo_juliet_waterhouse : ImageEntry := {|
  url := "https://upload.wikimedia.org/wikipedia/commons/thumb/b/ba/John_William_Waterhouse_-_Juliet_-_1898.jpg/400px-John_William_Waterhouse_-_Juliet_-_1898.jpg";
  title := "Juliet by John William Waterhouse";
  caption := "Juliet by John William Waterhouse (1898) - Public Domain";
  alt_text := "Painting of Juliet on her balcony" |}.

Definition shakespeare_portrait : ImageEntry := {|
  url := "https://upload.wikimedia.org/wikipedia/commons/thumb/a/a2/Shakespeare.jpg/220px-Shakespeare.jpg";
  title := "William Shakespeare Portrait";
  caption := "William Shakespeare - The Bard";
  alt_text := "Portrait of William Shakespeare" |}.

Definition solar_system : ImageEntry := {|
  url := "https://upload.wikimedia.org/wikipedia/commons/thumb/c/cb/Planets2013.svg/450px-Planets2013.svg.png";
  title := "Solar System Diagram";
  caption := "The Solar System - Educational Diagram";
  alt_text := "Diagram showing all planets in the solar system" |}.

Definition dna_structure : ImageEntry := {|
  url := "https://upload.wikimedia.org/wikipedia/commons/thumb/4/4c/DNA_Structure%2BKey%2BLabelled.pn_NoBB.png/220px-DNA_Structure%2BKey%2BLabelled.pn_NoBB.png";
  title := "DNA Double Helix";
  caption := "DNA Double Helix Structure";
  alt_text := "3D model of DNA double helix" |}.

Definition EDUCATIONAL_IMAGES : list (string * ImageEntry) :=
  [ ("romeo_juliet_dicksee", romeo_juliet_dicksee);
    ("romeo_juliet_waterhouse", romeo_juliet_waterhouse);
    ("shakespeare_portrait", shakespeare_portrait);
    ("solar_system", solar_system);
    ("dna_structure", dna_structure) ].

(** [EDUCATIONAL_IMAGES[key]]. *)
Definition catalog_item (key : string) : result ImageEntry :=
  match assoc key EDUCATIONAL_IMAGES with
  | Some e => Ok e
  | None => Raise (Exn "KeyError" ("'" +:+ key +:+ "'"))
  end.

(** ** The resolver *)

Notation "'let!' x ':=' c 'in' k" := (rbind c (fun x => k))
  (at level 10, x name, c at level 100, k at level 200).

(** [results.append(EDUCATIONAL_IMAGES[key])]. *)
Definition append_item (results : list ImageEntry) (key : string)
  : result (list ImageEntry) :=
  let! e := catalog_item key in Ok (results ++ [e]).

Definition query_rules (query_lower : string) (results : list ImageEntry)
  : result (list ImageEntry) :=
  if Str.str_in "dicksee" query_lower
     || (Str.str_in "romeo" query_lower && Str.str_in "juliet" query_lower)
  then append_item results "romeo_juliet_dicksee"
  else if Str.str_in "juliet" query_lower
  then append_item results "romeo_juliet_waterhouse"
  else if Str.str_in "shakespeare" query_lower
  then append_item results "shakespeare_portrait"
  else if Str.str_in "solar" query_lower || Str.str_in "planet" query_lower
  then append_item results "solar_system"
  else if Str.str_in "dna" query_lower || Str.str_in "genetic" query_lower
  then append_item results "dna_structure"
  else Ok results.

Definition subject_rules (subject_lower : string) (results : list ImageEntry)
  : result (list ImageEntry) :=
  if Str.str_in "english" subject_lower || Str.str_in "literature" subject_lower
  then append_item results "shakespeare_portrait"
  else if Str.str_in "science" subject_lower || Str.str_in "biology" subject_lower
  then append_item results "dna_structure"
  else if Str.str_in "astronomy" subject_lower || Str.str_in "physics" subject_lower
  then append_item results "solar_system"
  else Ok results.

Definition is_empty {A} (l : list A) : bool :=
  match l with [] => true | _ => false end.

Definition find_relevant_images (query subject : pyval)
  : result (list ImageEntry) :=
  let! query_lower := py_lower query in
  let results := [] in
  let! results := query_rules query_lower results in
  let! results :=
    if is_empty results && truthy subject
    then (let! subject_lower := py_lower subject in
          subject_rules subject_lower results)
    else Ok results in
  let! results :=
    if is_empty results
    then append_item results "shakespeare_portrait"
    else Ok results in
  Ok results.

(** The subject argument as the signature declares it: a string, or [None]. *)
Definition opt_str (s : option string) : pyval :=
  match s with
  | Some x => PyStr x
  | None => PyNone
  end.

(** No keyword rule applies to the query. *)
Definition no_query_rule (q : string) : Prop :=
  ~ Str.contains_ci "dicksee" q /\
  ~ (Str.contains_ci "romeo" q /\ Str.contains_ci "juliet" q) /\
  ~ Str.contains_ci "juliet" q /\
  ~ Str.contains_ci "shakespeare" q /\
  ~ Str.contains_ci "solar" q /\ ~ Str.contains_ci "planet" q /\
  ~ Str.contains_ci "dna" q /\ ~ Str.contains_ci "genetic" q.

(** A list that is empty or holds one catalog entry. *)
Definition at_most_one (r : list ImageEntry) : Prop :=
  r = [] \/ exists e, r = [e] /\ In e (map snd EDUCATIONAL_IMAGES).

(** ** [hashlib.md5] and [base64.b64encode] *)

Module MD5.

Definition add32 (a b : Z) : Z := (a + b) mod 2 ^ 32.

Definition rotl32 (x n : Z) : Z :=
  Z.lor (Z.shiftl x n mod 2 ^ 32) (Z.shiftr x (32 - n)).

Definition not32 (x : Z) : Z := Z.lxor x 0xffffffff.

Definition shifts : list Z :=
  [ 7; 12; 17; 22; 7; 12; 17; 22; 7; 12; 17; 22; 7; 12; 17; 22;
    5; 9; 14; 20; 5; 9; 14; 20; 5; 9; 14; 20; 5; 9; 14; 20;
    4; 11; 16; 23; 4; 11; 16; 23; 4; 11; 16; 23; 4; 11; 16; 23;
    6; 10; 15; 21; 6; 10; 15; 21; 6; 10; 15; 21; 6; 10; 15; 21 ].

Definition sines : list Z :=
  [ 0xd76aa478; 0xe8c7b756; 0x242070db; 0xc1bdceee;
    0xf57c0faf; 0x4787c62a; 0xa8304613; 0xfd469501;
    0x698098d8; 0x8b44f7af; 0xffff5bb1; 0x895cd7be;
    0x6b901122; 0xfd987193; 0xa679438e; 0x49b40821;
    0xf61e2562; 0xc040b340; 0x265e5a51; 0xe9b6c7aa;
    0xd62f105d; 0x02441453; 0xd8a1e681; 0xe7d3fbc8;
    0x21e1cde6; 0xc33707d6; 0xf4d50d87; 0x455a14ed;
    0xa9e3e905; 0xfcefa3f8; 0x676f02d9; 0x8d2a4c8a;
    0xfffa3942; 0x8771f681; 0x6d9d6122; 0xfde5380c;
    0xa4beea44; 0x4bdecfa9; 0xf6bb4b60; 0xbebfbc70;
    0x289b7ec6; 0xeaa127fa; 0xd4ef3085; 0x04881d05;
    0xd9d4d039; 0xe6db99e5; 0x1fa27cf8; 0xc4ac5665;
    0xf4292244; 0x432aff97; 0xab9423a7; 0xfc93a039;
    0x655b59c3; 0x8f0ccc92; 0xffeff47d; 0x85845dd1;
    0x6fa87e4f; 0xfe2ce6e0; 0xa3014314; 0x4e0811a1;
    0xf7537e82; 0xbd3af235; 0x2ad7d2bb; 0xeb86d391 ].

Definition nthZ (l : list Z) (i : Z) : Z := nth (Z.to_nat i) l 0.

(** The message followed by 0x80, zeros up to 56 modulo 64, and its length
    in bits as 8 little-endian bytes. *)
Definition le_bytes (n : nat) (x : Z) : list Z :=
  map (fun i => Z.shiftr x (8 * Z.of_nat i) mod 256) (seq 0 n).

Definition pad (msg : list Z) : list Z :=
  let len := Z.of_nat (length msg) in
  msg ++ [0x80] ++ repeat 0 (Z.to_nat ((55 - len) mod 64)) ++ le_bytes 8 (8 * len).

Fixpoint le_words (bs : list Z) : list Z :=
  match bs with
  | b0 :: b1 :: b2 :: b3 :: t =>
      (b0 + Z.shiftl b1 8 + Z.shiftl b2 16 + Z.shiftl b3 24) :: le_words t
  | _ => []
  end.

Definition state : Type := Z * Z * Z * Z.

Definition step (m : list Z) (st : state) (i : Z) : state :=
  let '(a, b, c, d) := st in
  let '(f, g) :=
    if i <? 16 then (Z.lor (Z.land b c) (Z.land (not32 b) d), i)
    else if i <? 32 then (Z.lor (Z.land d b) (Z.land (not32 d) c), (5 * i + 1) mod 16)
    else if i <? 48 then (Z.lxor (Z.lxor b c) d, (3 * i + 5) mod 16)
    else (Z.lxor c (Z.lor b (not32 d)), (7 * i) mod 16) in
  let f := add32 (add32 (add32 f a) (nthZ sines i)) (nthZ m g) in
  (d, add32 b (rotl32 f (nthZ shifts i)), b, c).

Definition block (st : state) (bs : list Z) : state :=
  let '(a0, b0, c0, d0) := st in
  let '(a, b, c, d) :=
    fold_left (step (le_words bs)) (map Z.of_nat (seq 0 64)) st in
  (add32 a0 a, add32 b0 b, add32 c0 c, add32 d0 d).

Fixpoint blocks (n : nat) (st : state) (bs : list Z) : state :=
  match n with
  | O => st
  | S n' => blocks n' (block st (firstn 64 bs)) (skipn 64 bs)
  end.

(** The 16 bytes of the digest. *)
Definition digest (msg : list byte) : list Z :=
  let bs := pad (map (fun b => Z.of_N (Byte.to_N b)) msg) in
  let '(a, b, c, d) :=
    blocks (length bs / 64) (0x67452301, 0xefcdab89, 0x98badcfe, 0x10325476) bs in
  le_bytes 4 a ++ le_bytes 4 b ++ le_bytes 4 c ++ le_bytes 4 d.

Definition hex_digit (n : Z) : ascii :=
  ascii_of_N (Z.to_N (if n <? 10 then 48 + n else 87 + n)).

Fixpoint hex (bs : list Z) : string :=
  match bs with
  | [] => ""
  | b :: t => String (hex_digit (b / 16)) (String (hex_digit (b mod 16)) (hex t))
  end.

(** [hashlib.md5(data).hexdigest()]. *)
Definition hexdigest (data : list byte) : string := hex (digest data).

End MD5.

Module Base64.

Definition alphabet : string :=
  "ABCDEFGHIJKLMNOPQRSTUVWXYZabcdefghijklmnopqrstuvwxyz0123456789+/".

Definition sextet (n : N) : ascii :=
  match String.get (N.to_nat n) alphabet with
  | Some c => c
  | None => "="%char
  end.

Definition code (b : byte) : N := Byte.to_N b.

(** [base64.b64encode(data).decode('utf-8')]: three bytes become four
    characters, a last group of one or two bytes is padded with [=]. *)
Fixpoint b64encode (data : list byte) : string :=
  match data with
  | [] => ""
  | [a] =>
      String (sextet (N.shiftr (code a) 2))
     (String (sextet (N.shiftl (N.land (code a) 3) 4)) "==")
  | [a; b] =>
      String (sextet (N.shiftr (code a) 2))
     (String (sextet (N.lor (N.shiftl (N.land (code a) 3) 4) (N.shiftr (code b) 4)))
     (String (sextet (N.shiftl (N.land (code b) 15) 2)) "="))
  | a :: b :: c :: t =>
      String (sextet (N.shiftr (code a) 2))
     (String (sextet (N.lor (N.shiftl (N.land (code a) 3) 4) (N.shiftr (code b) 4)))
     (String (sextet (N.lor (N.shiftl (N.land (code b) 15) 2) (N.shiftr (code c) 6)))
     (String (sextet (N.land (code c) 63)) (b64encode t))))
  end.

End Base64.

(** ** The world: cache, network and console *)

Record response := { status_code : Z; content : list byte }.

Record world := {
  image_cache : gmap string string;   (* the module-level dictionary *)
  net_log : list string;              (* the locations requested so far *)
  console : list string               (* the lines printed so far *)
}.

Definition startup : world :=
  {| image_cache := ∅; net_log := []; console := [] |}.

(** A computation may read and change the world, and may raise. What was
    changed before an exception stays changed. *)
Definition M (A : Type) : Type := world -> result A * world.

Definition ret {A} (a : A) : M A := fun w => (Ok a, w).

Definition raise {A} (e : exn) : M A := fun w => (Raise e, w).

Definition bind {A B} (c : M A) (k : A -> M B) : M B :=
  fun w => match c w with
           | (Ok a, w') => k a w'
           | (Raise e, w') => (Raise e, w')
           end.

Definition lift {A} (r : result A) : M A := fun w => (r, w).

(** [try: body  except Exception as e: handler]. *)
Definition try_except {A} (body : M A) (handler : exn -> M A) : M A :=
  fun w => match body w with
           | (Ok a, w') => (Ok a, w')
           | (Raise e, w') => handler e w'
           end.

Notation "'do' x <- c ; k" := (bind c (fun x => k))
  (at level 10, x name, c at level 100, k at level 200).

Definition get_cache : M (gmap string string) := fun w => (Ok (image_cache w), w).

Definition set_cache (k v : string) : M unit :=
  fun w => (Ok tt, {| image_cache := <[k := v]> (image_cache w);
                      net_log := net_log w;
                      console := console w |}).

Fixpoint mapM {A B} (f : A -> M B) (l : list A) : M (list B) :=
  match l with
  | [] => ret []
  | a :: t => do b <- f a; do bs <- mapM f t; ret (b :: bs)
  end.

(** ** The response *)

Module Out.
Record ImageResult := {
  url : string;
  data : string;
  title : string;
  educational_caption : string;
  alt_text : string;
  source : string
}.
End Out.

Record envelope := {
  success : bool;
  images : list Out.ImageResult;
  error : option string
}.

(** The answer of the handler to an exception. *)
Definition failure (message : string) : envelope :=
  {| success := false; images := []; error := Some message |}.

(** [l[:stop]]. *)
Definition slice_to {A} (l : list A) (stop : pyval) : result (list A) :=
  let upto (z : Z) :=
    if z <? 0 then firstn (Z.to_nat (Z.of_nat (length l) + z)) l
    else firstn (Z.to_nat z) l in
  match stop with
  | PyNone => Ok l
  | PyInt z => Ok (upto z)
  | PyBool b => Ok (upto (if b then 1 else 0))
  | _ => Raise (Exn "TypeError"
           "slice indices must be integers or None or have an __index__ method")
  end.

(** [not image_data]: [None] and the empty string are both false. *)
Definition no_data (image_data : option string) : bool :=
  match image_data with
  | None => true
  | Some s => String.eqb s ""
  end.

(** [image_data or ""]. *)
Definition data_or_empty (image_data : option string) : string :=
  match image_data with
  | None => ""
  | Some s => if String.eqb s "" then "" else s
  end.

(** The dictionary appended to [processed_images]. *)
Definition image_result (img : ImageEntry) (image_data : option string)
  : Out.ImageResult :=
  {| Out.url := if no_data image_data then url img else "";
     Out.data := data_or_empty image_data;
     Out.title := title img;
     Out.educational_caption := caption img;
     Out.alt_text := alt_text img;
     Out.source := "wikimedia" |}.

Definition cache_key (url : string) : string := MD5.hexdigest (Str.encode url).

Section Service.

(** The transport behind [requests.get(url, timeout=...)]: what the [n]-th
    network call of the process answers for a location, either a response
    or an exception (time-out, connection error). *)
Variable requests_get : nat -> string -> Z -> result response.

(** The console behind [print]: what happens to a line written when [n]
    network calls have been made, either accepted or an exception (a
    character the console's encoding lacks, a closed stream). *)
Variable stdout_write : nat -> string -> result unit.

(** [print(line)]: the line reaches the console, or the exception of the
    console is raised and nothing is written. *)
Definition print (line : string) : M unit :=
  fun w => match stdout_write (length (net_log w)) line with
           | Ok _ => (Ok tt, {| image_cache := image_cache w;
                                net_log := net_log w;
                                console := console w ++ [line] |})
           | Raise e => (Raise e, w)
           end.

Definition http_get (url : string) (timeout : Z) : M response :=
  fun w => (requests_get (length (net_log w)) url timeout,
            {| image_cache := image_cache w;
               net_log := net_log w ++ [url];
               console := console w |}).

(** The body of the [try] in [download_image]; falling out of it leads to
    the final [return None]. *)
Definition download_image_body (url : string) : M (option string) :=
  let cache_key := cache_key url in
  do cache <- get_cache;
  match cache !! cache_key with
  | Some cached => ret (Some cached)
  | None =>
      do response <- http_get url 10;
      if status_code response =? 200 then
        let image_base64 := Base64.b64encode (content response) in
        do cache <- get_cache;
        do _ <- (if (size cache <? 20)%nat
                 then set_cache cache_key image_base64
                 else ret tt);
        ret (Some image_base64)
      else ret None
  end.

Definition download_image (url : string) : M (option string) :=
  try_except (download_image_body url)
    (fun e =>
       do _ <- print ("Error downloading image from " +:+ url +:+ ": " +:+ exn_str e);
       ret None).

(** One turn of the loop over [images[:count]]. *)
Definition process_image (img : ImageEntry) : M Out.ImageResult :=
  do image_data <- download_image (url img);
  ret (image_result img image_data).

(** The body of the [try] in [fetch_image]; [request_json] is what reading
    [request.json] gives: the decoded body, or the exception of the decoder. *)
Definition fetch_image_body (request_json : result pyval) : M envelope :=
  do data <- lift request_json;
  do query <- lift (py_get data "query" (PyStr ""));
  do subject <- lift (py_get data "subject" PyNone);
  do count <- lift (py_get data "count" (PyInt 1));
  do images <- lift (find_relevant_images query subject);
  if is_empty images then
    ret {| success := false; images := [];
           error := Some "No relevant images found" |}
  else
    do selected <- lift (slice_to images count);
    do processed_images <- mapM process_image selected;
    ret {| success := true; images := processed_images; error := None |}.

Definition fetch_image (request_json : result pyval) : M envelope :=
  try_except (fetch_image_body request_json)
    (fun e => ret {| success := false; images := []; error := Some (exn_str e) |}).

(** [GET /health]. *)
Definition health : M nat :=
  do cache <- get_cache; ret (size cache).

(** The operations that reach the cache, and a run of them from start-up. *)
Inductive call :=
  | CallDownload (url : string)
  | CallFetchImage (request_json : result pyval)
  | CallHealth.

Definition run_call (w : world) (c : call) : world :=
  match c with
  | CallDownload u => snd (download_image u w)
  | CallFetchImage r => snd (fetch_image r w)
  | CallHealth => snd (health w)
  end.

Definition run (calls : list call) : world := fold_left run_call calls startup.

End Service.

(** ** Notions used in the statements *)

(** The world after a network call for [u]. *)
Definition called (u : string) (w : world) : world :=
  {| image_cache := image_cache w; net_log := net_log w ++ [u]; console := console w |}.

(** The number of network calls a computation makes from a world. *)
Definition calls_made {A} (c : M A) (w : world) : nat :=
  (length (net_log (snd (c w))) - length (net_log w))%nat.

(** Two calls of [download_image] with the same location. *)
Definition fetch_twice (requests_get : nat -> string -> Z -> result response)
  (stdout_write : nat -> string -> result unit)
  (url : string) : M (option string) :=
  do _ <- download_image requests_get stdout_write url;
  download_image requests_get stdout_write url.

(** What a step may do to the cache: every record stays as it is, and a
    cache within the capacity stays within it. *)
Definition keeps (w w' : world) : Prop :=
  (forall k v, image_cache w !! k = Some v -> image_cache w' !! k = Some v) /\
  ((size (image_cache w) <= 20)%nat -> (size (image_cache w') <= 20)%nat).

(** The reading "two fetches of one location make at most one network
    call", for every transport, location and cache. *)
Definition one_call_for_two_fetches : Prop :=
  forall requests_get stdout_write u w,
    (calls_made (fetch_twice requests_get stdout_write u) w <= 1)%nat.

(** The reading "the result's url is the entry's location exactly when the
    fetch returned nothing, and empty otherwise". *)
Definition url_iff_absent : Prop :=
  forall requests_get stdout_write img w image_data w' res,
    download_image requests_get stdout_write (url img) w = (Ok image_data, w') ->
    process_image requests_get stdout_write img w = (Ok res, w') ->
    Out.url res = match image_data with
                  | None => url img
                  | Some _ => ""
                  end.

(** The reading "every decoded body with a count of zero or less is answered
    with success and no images". *)
Definition nonpositive_count_always_succeeds : Prop :=
  forall requests_get stdout_write data c w,
    py_get data "count" (PyInt 1) = Ok (PyInt c) -> c <= 0 ->
    fst (fetch_image requests_get stdout_write (Ok data) w)
    = Ok {| success := true; images := []; error := None |}.

(** ** Notions used in the further statements *)

(** Some keyword rule applies to the query. *)
Definition some_query_rule (q : string) : Prop :=
  Str.contains_ci "dicksee" q \/
  (Str.contains_ci "romeo" q /\ Str.contains_ci "juliet" q) \/
  Str.contains_ci "juliet" q \/
  Str.contains_ci "shakespeare" q \/
  Str.contains_ci "solar" q \/ Str.contains_ci "planet" q \/
  Str.contains_ci "dna" q \/ Str.contains_ci "genetic" q.

Definition is_str (v : pyval) : bool :=
  match v with
  | PyStr _ => true
  | _ => false
  end.

(** The characters of a hexadecimal digest: [0-9a-f]. *)
Definition is_hex_digit (c : ascii) : bool :=
  let n := N_of_ascii c in
  ((48 <=? n) && (n <=? 57) || (97 <=? n) && (n <=? 102))%N.

Fixpoint all_chars (p : ascii -> bool) (s : string) : bool :=
  match s with
  | EmptyString => true
  | String c t => p c && all_chars p t
  end.

(** The locations of the catalog and their fingerprints. *)
Definition catalog_urls : list string :=
  map (fun item => url (snd item)) EDUCATIONAL_IMAGES.

Definition catalog_keys : gset string :=
  list_to_set (map cache_key catalog_urls).

(** The answer that carries the images built in the loop. *)
Definition answer (processed_images : list Out.ImageResult) : envelope :=
  {| success := true; images := processed_images; error := None |}.

(** ** Concrete transports and inputs used in the examples *)

Module Scenario.

Definition answers (r : result response) : nat -> string -> Z -> result response :=
  fun _ _ _ => r.

(** Every location is served with status 200 and the three bytes [abc]. *)
Definition serving : nat -> string -> Z -> result response :=
  answers (Ok {| status_code := 200; content := Str.encode "abc" |}).

(** Every location is served with status 200 and an empty body. *)
Definition serving_nothing : nat -> string -> Z -> result response :=
  answers (Ok {| status_code := 200; content := [] |}).

Definition not_found : nat -> string -> Z -> result response :=
  answers (Ok {| status_code := 404; content := [] |}).

Definition unreachable : nat -> string -> Z -> result response :=
  answers (Raise (Exn "ConnectionError" "connection refused")).

(** The transport raises with a message of its own. *)
Definition refusing (message : string) : nat -> string -> Z -> result response :=
  answers (Raise (Exn "ConnectionError" message)).

(** A message with one letter outside ASCII (code point 233). *)
Definition accented : string := "caf" +:+ String (ascii_of_N 233) " down".

(** A console that accepts every line. *)
Definition accepting : nat -> string -> result unit :=
  fun _ _ => Ok tt.

(** A console whose encoding is ASCII: a line with a code point of 128 or
    more is refused with the [UnicodeEncodeError] of the codec, which names
    the first run of such characters. *)
Definition outside_ascii (c : ascii) : bool := (128 <=? N_of_ascii c)%N.

Fixpoint run_outside_ascii (s : string) : nat :=
  match s with
  | EmptyString => 0%nat
  | String c t => if outside_ascii c then S (run_outside_ascii t) else 0%nat
  end.

Fixpoint find_outside_ascii (i : nat) (s : string) : option (nat * ascii * nat) :=
  match s with
  | EmptyString => None
  | String c t =>
      if outside_ascii c then Some (i, c, S (run_outside_ascii t))
      else find_outside_ascii (S i) t
  end.

Definition decimal (n : nat) : string := NilZero.string_of_uint (Nat.to_uint n).

Definition ascii_console : nat -> string -> result unit :=
  fun _ line =>
    match find_outside_ascii 0 line with
    | None => Ok tt
    | Some (i, c, len) =>
        Raise (Exn "UnicodeEncodeError"
          (if (len =? 1)%nat
           then "'ascii' codec can't encode character '\x"
                +:+ MD5.hex [Z.of_N (N_of_ascii c)]
                +:+ "' in position " +:+ decimal i
                +:+ ": ordinal not in range(128)"
           else "'ascii' codec can't encode characters in position "
                +:+ decimal i +:+ "-" +:+ decimal (i + len - 1)
                +:+ ": ordinal not in range(128)"))
    end.

Definition location (n : nat) : string :=
  "https://example.org/" +:+ String (ascii_of_nat (97 + n)) ".png".

(** Twenty fetches of twenty different locations. *)
Definition twenty_fetches : list call :=
  map (fun n => CallDownload (location n)) (seq 0 20).

Definition body (fields : list (string * pyval)) : result pyval :=
  Ok (PyDict fields).

End Scenario.

(** ** Facts about strings *)

Module StrFacts.
Import Str.

Lemma prefix_iff (a b : string) :
  String.prefix a b = true <-> exists t, b = a +:+ t.
Proof.
  revert b. induction a as [|c a IH]; intros b.
  - destruct b; simpl; split; eauto.
  - destruct b as [|d b]; simpl.
    + split; [discriminate | intros [t Ht]; discriminate].
    + destruct (ascii_dec c d) as [->|Hne].
      * rewrite IH. split; intros [t Ht]; exists t; [by rewrite Ht | by injection Ht].
      * split; [discriminate | intros [t Ht]; injection Ht; congruence].
Qed.

Lemma str_in_unfold (needle hay : string) :
  str_in needle hay =
  if String.prefix needle hay then true
  else match hay with "" => false | String _ t => str_in needle t end.
Proof. by destruct hay. Qed.

Lemma str_in_iff (needle hay : string) :
  str_in needle hay = true <-> exists pre post, hay = pre +:+ needle +:+ post.
Proof.
  induction hay as [|c hay IH]; rewrite str_in_unfold;
    destruct (String.prefix needle _) eqn:Hp.
  - apply prefix_iff in Hp as [t Ht]. split; [intros _; exists "", t; exact Ht | done].
  - split; [discriminate | intros ([|? pre] & post & H); [|discriminate]].
    assert (String.prefix needle "" = true) as Hp'
      by (apply prefix_iff; exists post; exact H). congruence.
  - apply prefix_iff in Hp as [t Ht]. split; [intros _; exists "", t; exact Ht | done].
  - rewrite IH. split.
    + intros (pre & post & ->). by exists (String c pre), post.
    + intros ([|d pre] & post & H).
      * assert (String.prefix needle (String c hay) = true) as Hp'
          by (apply prefix_iff; exists post; exact H). congruence.
      * injection H as _ ->. eauto.
Qed.

Lemma lower_app (a b : string) : lower (a +:+ b) = lower a +:+ lower b.
Proof. induction a as [|c a IH]; simpl; [done | by rewrite IH]. Qed.

Lemma lower_split (q a b : string) :
  lower q = a +:+ b -> exists q1 q2, q = q1 +:+ q2 /\ lower q1 = a /\ lower q2 = b.
Proof.
  revert q. induction a as [|c a IH]; intros q H; simpl in H.
  - by exists "", q.
  - destruct q as [|d q]; simpl in H; [discriminate|].
    injection H as Hc Hq. destruct (IH q Hq) as (q1 & q2 & -> & <- & <-).
    exists (String d q1), q2. simpl. by rewrite Hc.
Qed.

Lemma is_upper_iff (c : ascii) :
  is_upper c = true <->
  (65 <= N_of_ascii c <= 90 \/ 192 <= N_of_ascii c <= 222 /\ N_of_ascii c <> 215)%N.
Proof.
  unfold is_upper.
  rewrite orb_true_iff, !andb_true_iff, negb_true_iff, !N.leb_le, N.eqb_neq. tauto.
Qed.

Lemma is_ascii_lower_iff (k : ascii) :
  is_ascii_lower k = true <-> (97 <= N_of_ascii k <= 122)%N.
Proof. unfold is_ascii_lower. by rewrite andb_true_iff, !N.leb_le. Qed.

Lemma lower_char_small (k : ascii) : is_ascii_lower k = true -> lower_char k = k.
Proof.
  rewrite is_ascii_lower_iff. intros H. unfold lower_char.
  destruct (is_upper k) eqn:Hu; [|done]. apply is_upper_iff in Hu. lia.
Qed.

Lemma lower_char_variant (c k : ascii) :
  is_ascii_lower k = true -> (case_variant c k <-> lower_char c = k).
Proof.
  intros Hk. split.
  - intros [->|[_ Hn]]; [by apply lower_char_small|].
    apply is_ascii_lower_iff in Hk.
    assert (is_upper c = true) as Hu by (apply is_upper_iff; lia).
    unfold lower_char. rewrite Hu, Hn. apply ascii_N_embedding.
  - unfold lower_char. destruct (is_upper c) eqn:Hu; intros H; [|by left].
    right. split; [done|]. rewrite <- H. rewrite N_ascii_embedding; [done|].
    apply is_upper_iff in Hu. lia.
Qed.

Lemma lower_variant (mid kw : string) :
  small_letters kw = true -> (case_variant_str mid kw <-> lower mid = kw).
Proof.
  revert mid. induction kw as [|k kw IH]; intros [|c mid] Hkw; simpl in *;
    try (split; [done | discriminate]); [done|].
  apply andb_prop in Hkw as [Hk Hkw].
  rewrite (lower_char_variant c k Hk), (IH mid Hkw).
  split; [intros [-> ->]; done | intros H; by injection H].
Qed.

(** Matching a keyword of small letters in any letter case is the test the
    resolver performs: the keyword occurs in the lowered string. *)
Lemma contains_ci_iff (kw q : string) :
  small_letters kw = true ->
  (contains_ci kw q <-> str_in kw (lower q) = true).
Proof.
  intros Hkw. rewrite str_in_iff. split.
  - intros (pre & mid & post & -> & Hv). apply (lower_variant _ _ Hkw) in Hv.
    exists (lower pre), (lower post). by rewrite !lower_app, Hv.
  - intros (a & b & H). apply lower_split in H as (pre & rest & -> & <- & H).
    apply lower_split in H as (mid & post & -> & Hm & <-).
    exists pre, mid, post. split; [done|]. by apply (lower_variant _ _ Hkw).
Qed.

End StrFacts.

(** ** The library functions against known values *)

Module Vectors.

Example md5_of_nothing :
  MD5.hexdigest [] = "d41d8cd98f00b204e9800998ecf8427e".
Proof. vm_compute. reflexivity. Qed.

Example md5_of_abc :
  MD5.hexdigest (Str.encode "abc") = "900150983cd24fb0d6963f7d28e17f72".
Proof. vm_compute. reflexivity. Qed.

Example md5_of_two_blocks :
  MD5.hexdigest (Str.encode
    "12345678901234567890123456789012345678901234567890123456789012345678901234567890")
  = "57edf4a22be3c955ac49da2e2107b67a".
Proof. vm_compute. reflexivity. Qed.

Example base64_of_abc : Base64.b64encode (Str.encode "abc") = "YWJj".
Proof. reflexivity. Qed.

Example base64_padded :
  Base64.b64encode (Str.encode "1234567890") = "MTIzNDU2Nzg5MA==".
Proof. reflexivity. Qed.

Example lower_of_mixed_case :
  Str.lower "RoMeO and JULIET [x]" = "romeo and juliet [x]".
Proof. reflexivity. Qed.

Example empty_needle_is_found : Str.str_in "" "abc" = true.
Proof. reflexivity. Qed.

Example resolve_default :
  find_relevant_images (PyStr "") PyNone = Ok [shakespeare_portrait].
Proof. reflexivity. Qed.

Example resolve_dicksee_any_case :
  find_relevant_images (PyStr "DICKSEE") PyNone
  = find_relevant_images (PyStr "dicksee") PyNone.
Proof. reflexivity. Qed.

Example resolve_by_subject :
  find_relevant_images (PyStr "") (PyStr "biology") = Ok [dna_structure] /\
  find_relevant_images (PyStr "") (PyStr "astronomy") = Ok [solar_system].
Proof. split; reflexivity. Qed.

Example juliet_alone :
  find_relevant_images (PyStr "Juliet on the balcony") PyNone
  = Ok [romeo_juliet_waterhouse].
Proof. reflexivity. Qed.

Example handle_solar_system_count_5 :
  fst (fetch_image Scenario.serving Scenario.accepting
         (Scenario.body [("query", PyStr "solar system"); ("count", PyInt 5)])
         startup)
  = Ok {| success := true;
          images := [image_result solar_system (Some "YWJj")];
          error := None |}.
Proof. vm_compute. reflexivity. Qed.

Example handle_failed_fetch :
  fst (fetch_image Scenario.unreachable Scenario.accepting
         (Scenario.body [("query", PyStr "shakespeare"); ("count", PyInt 1)])
         startup)
  = Ok {| success := true;
          images := [image_result shakespeare_portrait None];
          error := None |}.
Proof. vm_compute. reflexivity. Qed.

End Vectors.

(** ** The resolver *)

Section Resolver.
Import Str StrFacts.

Lemma ci_true (kw q : string) :
  small_letters kw = true -> contains_ci kw q -> str_in kw (lower q) = true.
Proof. intros Hkw. by apply contains_ci_iff. Qed.

Lemma ci_false (kw q : string) :
  small_letters kw = true -> ~ contains_ci kw q -> str_in kw (lower q) = false.
Proof.
  intros Hkw Hn. destruct (str_in kw (lower q)) eqn:E; [|done].
  exfalso. apply Hn. by apply contains_ci_iff.
Qed.

Lemma query_rules_none (q : string) :
  no_query_rule q -> query_rules (lower q) [] = Ok [].
Proof.
  intros (H1 & _ & H3 & H4 & H5 & H6 & H7 & H8). unfold query_rules.
  rewrite (ci_false "dicksee"), (ci_false "juliet"), (ci_false "shakespeare"),
    (ci_false "solar"), (ci_false "planet"), (ci_false "dna"),
    (ci_false "genetic") by done.
  by rewrite andb_false_r.
Qed.

(** C1: a query that contains both "romeo" and "juliet", in any letter case
    and with any text around them, resolves to exactly the Romeo and Juliet
    (Dicksee) entry, whatever the subject and whether or not "dicksee"
    occurs in the query. *)
Theorem romeo_and_juliet_give_dicksee (q : string) (subject : pyval) :
  contains_ci "romeo" q -> contains_ci "juliet" q ->
  find_relevant_images (PyStr q) subject = Ok [romeo_juliet_dicksee].
Proof.
  intros Hr Hj. unfold find_relevant_images, py_lower, rbind at 1.
  unfold query_rules.
  rewrite (ci_true "romeo"), (ci_true "juliet") by done.
  by rewrite orb_true_r.
Qed.

Lemma romeo_and_juliet_witness :
  find_relevant_images (PyStr "Tell me about ROMEO and his JuLiEt") (PyStr "physics")
  = Ok [romeo_juliet_dicksee].
Proof.
  apply romeo_and_juliet_give_dicksee.
  - exists "Tell me about ", "ROMEO", " and his JuLiEt".
    split; [reflexivity | vm_compute; intuition].
  - exists "Tell me about ROMEO and his ", "JuLiEt", "".
    split; [reflexivity | vm_compute; intuition].
Defined.

Ltac split_on_keywords :=
  repeat match goal with
         | |- context [str_in ?k ?x] => destruct (str_in k x)
         end.

Ltac one_entry := right; eexists; split; [reflexivity | simpl; tauto].

Lemma query_rules_at_most_one (ql : string) :
  exists r, query_rules ql [] = Ok r /\ at_most_one r.
Proof.
  unfold query_rules. split_on_keywords; simpl;
    eexists; (split; [reflexivity|]); first [one_entry | by left].
Qed.

Lemma subject_rules_at_most_one (sl : string) :
  exists r, subject_rules sl [] = Ok r /\ at_most_one r.
Proof.
  unfold subject_rules. split_on_keywords; simpl;
    eexists; (split; [reflexivity|]); first [one_entry | by left].
Qed.

Lemma find_relevant_images_one (q : string) (subject : option string) :
  exists e, find_relevant_images (PyStr q) (opt_str subject) = Ok [e]
            /\ In e (map snd EDUCATIONAL_IMAGES).
Proof.
  unfold find_relevant_images, py_lower, rbind at 1.
  destruct (query_rules_at_most_one (lower q)) as (r & -> & [->|(e & -> & He)]);
    [|by exists e].
  unfold rbind at 1.
  destruct subject as [s|]; simpl; [|eexists; split; [reflexivity | simpl; tauto]].
  destruct (negb (String.eqb s "")); simpl;
    [|eexists; split; [reflexivity | simpl; tauto]].
  destruct (subject_rules_at_most_one (lower s)) as (r & -> & [->|(e & -> & He)]);
    [eexists; split; [reflexivity | simpl; tauto] | by exists e].
Qed.

(** C2: for every query string and every subject (a string or none) the
    resolver returns a list of exactly one entry, neither empty nor longer,
    and the entry comes from the catalog. *)
Theorem resolver_returns_one_entry (q : string) (subject : option string) :
  exists e, find_relevant_images (PyStr q) (opt_str subject) = Ok [e]
            /\ In e (map snd EDUCATIONAL_IMAGES).
Proof. apply find_relevant_images_one. Qed.

Lemma with_subject (q s : string) (r : list ImageEntry) :
  no_query_rule q -> s <> "" -> subject_rules (lower s) [] = Ok r ->
  find_relevant_images (PyStr q) (PyStr s)
  = Ok (if is_empty r then [shakespeare_portrait] else r).
Proof.
  intros Hq Hs Hr. unfold find_relevant_images, py_lower, rbind at 1.
  rewrite (query_rules_none q Hq). unfold rbind at 1. simpl.
  apply String.eqb_neq in Hs. rewrite Hs. simpl. rewrite Hr.
  by destruct r.
Qed.

Lemma ci_nonempty (kw s : string) :
  small_letters kw = true -> kw <> "" -> contains_ci kw s -> s <> "".
Proof.
  intros Hkw Hne H%ci_true Hs; [|done]. subst s.
  destruct kw; [done | discriminate].
Qed.

(** C8: when no keyword rule applies to the query, a subject that contains
    "english" or "literature" (in any letter case) gives the Shakespeare
    portrait; otherwise one that contains "science" or "biology" gives the
    DNA entry; otherwise one that contains "astronomy" or "physics" gives the
    solar system entry; and with no subject, or a subject that none of these
    rules accepts, the result is the Shakespeare portrait. *)
Theorem subject_rules_then_default (q : string) :
  no_query_rule q ->
  (forall s, contains_ci "english" s \/ contains_ci "literature" s ->
     find_relevant_images (PyStr q) (PyStr s) = Ok [shakespeare_portrait]) /\
  (forall s, ~ (contains_ci "english" s \/ contains_ci "literature" s) ->
     contains_ci "science" s \/ contains_ci "biology" s ->
     find_relevant_images (PyStr q) (PyStr s) = Ok [dna_structure]) /\
  (forall s, ~ (contains_ci "english" s \/ contains_ci "literature" s) ->
     ~ (contains_ci "science" s \/ contains_ci "biology" s) ->
     contains_ci "astronomy" s \/ contains_ci "physics" s ->
     find_relevant_images (PyStr q) (PyStr s) = Ok [solar_system]) /\
  (forall s, ~ (contains_ci "english" s \/ contains_ci "literature" s) ->
     ~ (contains_ci "science" s \/ contains_ci "biology" s) ->
     ~ (contains_ci "astronomy" s \/ contains_ci "physics" s) ->
     find_relevant_images (PyStr q) (PyStr s) = Ok [shakespeare_portrait]) /\
  find_relevant_images (PyStr q) PyNone = Ok [shakespeare_portrait].
Proof.
  intros Hq. repeat split.
  - intros s H.
    assert (s <> "") as Hs by (destruct H; eapply ci_nonempty; eauto; done).
    rewrite (with_subject q s [shakespeare_portrait] Hq Hs); [done|].
    unfold subject_rules.
    destruct H as [H|H];
      [rewrite (ci_true "english") by done | rewrite (ci_true "literature") by done];
      [done | by rewrite orb_true_r].
  - intros s H1 H.
    assert (s <> "") as Hs by (destruct H; eapply ci_nonempty; eauto; done).
    rewrite (with_subject q s [dna_structure] Hq Hs); [done|].
    unfold subject_rules.
    rewrite (ci_false "english"), (ci_false "literature") by tauto.
    destruct H as [H|H];
      [rewrite (ci_true "science") by done | rewrite (ci_true "biology") by done];
      [done | by rewrite orb_true_r].
  - intros s H1 H2 H.
    assert (s <> "") as Hs by (destruct H; eapply ci_nonempty; eauto; done).
    rewrite (with_subject q s [solar_system] Hq Hs); [done|].
    unfold subject_rules.
    rewrite (ci_false "english"), (ci_false "literature"),
      (ci_false "science"), (ci_false "biology") by tauto.
    destruct H as [H|H];
      [rewrite (ci_true "astronomy") by done | rewrite (ci_true "physics") by done];
      [done | by rewrite orb_true_r].
  - intros s H1 H2 H3.
    destruct (String.eqb s "") eqn:Hs.
    + apply String.eqb_eq in Hs as ->.
      unfold find_relevant_images, py_lower, rbind at 1.
      by rewrite (query_rules_none q Hq).
    + apply String.eqb_neq in Hs.
      rewrite (with_subject q s [] Hq Hs); [done|].
      unfold subject_rules.
      by rewrite (ci_false "english"), (ci_false "literature"),
        (ci_false "science"), (ci_false "biology"),
        (ci_false "astronomy"), (ci_false "physics") by tauto.
  - unfold find_relevant_images, py_lower, rbind at 1.
    by rewrite (query_rules_none q Hq).
Qed.

End Resolver.

(** ** The fetch cache *)

Section FetchCache.

Variable requests_get : nat -> string -> Z -> result response.
Variable stdout_write : nat -> string -> result unit.

(** What [download_image] does, case by case. *)
Lemma download_image_cases (u : string) (w : world) :
  match image_cache w !! cache_key u with
  | Some v => download_image requests_get stdout_write u w = (Ok (Some v), w)
  | None =>
      match requests_get (length (net_log w)) u 10 with
      | Raise e =>
          download_image requests_get stdout_write u w =
          match stdout_write (length (net_log w ++ [u]))
                  ("Error downloading image from " +:+ u +:+ ": " +:+ exn_str e) with
          | Ok _ =>
              (Ok None,
               {| image_cache := image_cache w; net_log := net_log w ++ [u];
                  console := console w ++
                    ["Error downloading image from " +:+ u +:+ ": " +:+ exn_str e] |})
          | Raise x => (Raise x, called u w)
          end
      | Ok resp =>
          if status_code resp =? 200 then
            download_image requests_get stdout_write u w =
            (Ok (Some (Base64.b64encode (content resp))),
             if (size (image_cache w) <? 20)%nat
             then {| image_cache :=
                       <[cache_key u := Base64.b64encode (content resp)]> (image_cache w);
                     net_log := net_log w ++ [u]; console := console w |}
             else called u w)
          else download_image requests_get stdout_write u w = (Ok None, called u w)
      end
  end.
Proof.
  unfold download_image, try_except, download_image_body, bind, get_cache, http_get,
    print, called.
  destruct (image_cache w !! cache_key u) eqn:Hc; [done|].
  destruct (requests_get _ _ _) as [resp|e].
  2:{ cbn [net_log image_cache console]. by destruct (stdout_write _ _). }
  destruct (status_code resp =? 200); [|done].
  cbn [image_cache]. by destruct (size (image_cache w) <? 20)%nat.
Qed.

Lemma download_image_keeps (u : string) (w : world) :
  keeps w (snd (download_image requests_get stdout_write u w)).
Proof.
  pose proof (download_image_cases u w) as H.
  destruct (image_cache w !! cache_key u) eqn:Hc; [by rewrite H|].
  destruct (requests_get _ _ _) as [resp|e];
    [|rewrite H; by destruct (stdout_write _ _)].
  destruct (status_code resp =? 200); [|by rewrite H].
  rewrite H. destruct (size (image_cache w) <? 20)%nat eqn:Hs; [|done].
  apply Nat.ltb_lt in Hs. split; cbn [snd image_cache].
  - intros k v Hk. rewrite lookup_insert_ne; [done | congruence].
  - intros _. rewrite map_size_insert_None by done. lia.
Qed.

Lemma keeps_refl (w : world) : keeps w w.
Proof. done. Qed.

Lemma keeps_trans (w1 w2 w3 : world) : keeps w1 w2 -> keeps w2 w3 -> keeps w1 w3.
Proof. intros [A1 B1] [A2 B2]. split; auto. Qed.

Lemma process_images_keeps (imgs : list ImageEntry) (w : world) :
  keeps w (snd (mapM (process_image requests_get stdout_write) imgs w)).
Proof.
  revert w. induction imgs as [|img imgs IH]; intros w; [done|].
  cbn [mapM]. unfold bind at 1. unfold process_image at 1. unfold bind at 1.
  pose proof (download_image_keeps (url img) w) as Hd.
  destruct (download_image requests_get stdout_write (url img) w) as [[d|e] w1]; cbn [snd] in *; [|done].
  unfold ret at 1. unfold bind at 1.
  specialize (IH w1).
  destruct (mapM _ imgs w1) as [[rs|e] w2]; cbn [snd] in *;
    by apply (keeps_trans w w1 w2).
Qed.

Lemma fetch_image_keeps (r : result pyval) (w : world) :
  keeps w (snd (fetch_image requests_get stdout_write r w)).
Proof.
  unfold fetch_image, try_except, fetch_image_body, bind, lift.
  destruct r as [data|e]; [|done].
  destruct (py_get data "query" _) as [query|e]; [|done].
  destruct (py_get data "subject" _) as [subject|e]; [|done].
  destruct (py_get data "count" _) as [count|e]; [|done].
  destruct (find_relevant_images query subject) as [imgs|e]; [|done].
  destruct (is_empty imgs); [done|].
  destruct (slice_to imgs count) as [sel|e]; [|done].
  pose proof (process_images_keeps sel w) as Hk.
  by destruct (mapM _ sel w) as [[rs|e] w1].
Qed.

Lemma run_call_keeps (c : call) (w : world) : keeps w (run_call requests_get stdout_write w c).
Proof.
  destruct c; cbn [run_call];
    [apply download_image_keeps | apply fetch_image_keeps | done].
Qed.

Lemma run_within_capacity (calls : list call) :
  (size (image_cache (run requests_get stdout_write calls)) <= 20)%nat.
Proof.
  unfold run. induction calls as [|c calls IH] using rev_ind.
  - cbn. rewrite map_size_empty. lia.
  - rewrite fold_left_app. cbn [fold_left]. by apply run_call_keeps.
Qed.

(** C4: at every state reached from start-up by a sequence of operations
    the cache holds at most 20 records; no operation removes or replaces a
    record; and once the cache is full, a successful fetch of a location that
    is not cached returns its data, stores nothing, and a repeat of that
    fetch goes to the network again. *)
Theorem cache_capacity (calls : list call) :
  (size (image_cache (run requests_get stdout_write calls)) <= 20)%nat /\
  (forall c k v,
     image_cache (run requests_get stdout_write calls) !! k = Some v ->
     image_cache (run_call requests_get stdout_write (run requests_get stdout_write calls) c) !! k = Some v) /\
  (forall u resp,
     size (image_cache (run requests_get stdout_write calls)) = 20%nat ->
     image_cache (run requests_get stdout_write calls) !! cache_key u = None ->
     requests_get (length (net_log (run requests_get stdout_write calls))) u 10 = Ok resp ->
     status_code resp = 200 ->
     exists w1,
       download_image requests_get stdout_write u (run requests_get stdout_write calls)
       = (Ok (Some (Base64.b64encode (content resp))), w1) /\
       image_cache w1 = image_cache (run requests_get stdout_write calls) /\
       net_log w1 = net_log (run requests_get stdout_write calls) ++ [u] /\
       net_log (snd (download_image requests_get stdout_write u w1)) = net_log w1 ++ [u]).
Proof.
  split; [apply run_within_capacity|]. split.
  - intros c k v. apply run_call_keeps.
  - set (w := run requests_get stdout_write calls). intros u resp Hfull Hnew Hresp H200.
    pose proof (download_image_cases u w) as H.
    rewrite Hnew, Hresp, H200, Hfull in H. cbn in H.
    exists (called u w). split; [done|]. split; [done|]. split; [done|].
    pose proof (download_image_cases u (called u w)) as H2.
    cbn [called image_cache net_log] in H2. rewrite Hnew in H2.
    destruct (requests_get (length (net_log w ++ [u])) u 10) as [resp2|e];
      [|rewrite H2; by destruct (stdout_write _ _)].
    destruct (status_code resp2 =? 200); [|by rewrite H2].
    rewrite H2, Hfull. done.
Qed.

(** C3, as the code has it: when a fetch returned data and, as it started,
    the location was already cached or the cache held fewer than 20 records,
    a second fetch of the same location makes no network call, changes
    nothing and returns the same data; the two fetches together made at most
    one network call. *)
Theorem second_fetch_is_served_from_cache (u : string) (w w1 : world) (v : string) :
  download_image requests_get stdout_write u w = (Ok (Some v), w1) ->
  is_Some (image_cache w !! cache_key u) \/ (size (image_cache w) < 20)%nat ->
  download_image requests_get stdout_write u w1 = (Ok (Some v), w1) /\
  (calls_made (fetch_twice requests_get stdout_write u) w <= 1)%nat.
Proof.
  intros Hfirst Hroom.
  assert (image_cache w1 !! cache_key u = Some v /\
          (length (net_log w1) <= length (net_log w) + 1)%nat) as [Hc Hn].
  { pose proof (download_image_cases u w) as H.
    destruct (image_cache w !! cache_key u) eqn:Hk.
    - rewrite H in Hfirst. injection Hfirst as -> ->. split; [done | lia].
    - destruct Hroom as [[? ?]|Hlt]; [done|].
      destruct (requests_get _ _ _) as [resp|e];
        [|rewrite H in Hfirst; by destruct (stdout_write _ _)].
      destruct (status_code resp =? 200); [|by rewrite H in Hfirst].
      apply Nat.ltb_lt in Hlt. rewrite Hlt, Hfirst in H.
      injection H as -> ->. cbn [image_cache net_log]. split.
      + by rewrite lookup_insert_eq.
      + rewrite length_app. cbn. lia. }
  assert (download_image requests_get stdout_write u w1 = (Ok (Some v), w1)) as Hsecond.
  { pose proof (download_image_cases u w1) as H. by rewrite Hc in H. }
  split; [done|].
  unfold calls_made, fetch_twice, bind. rewrite Hfirst, Hsecond. cbn [snd]. lia.
Qed.

(** When [download_image] raises, it is the console that raised, on the
    line for an exception of the transport. *)
Lemma download_image_raise (u : string) (w w' : world) (x : exn) :
  download_image requests_get stdout_write u w = (Raise x, w') ->
  image_cache w !! cache_key u = None /\
  w' = called u w /\
  exists e,
    requests_get (length (net_log w)) u 10 = Raise e /\
    stdout_write (length (net_log w ++ [u]))
      ("Error downloading image from " +:+ u +:+ ": " +:+ exn_str e) = Raise x.
Proof.
  intros Hd. pose proof (download_image_cases u w) as H.
  destruct (image_cache w !! cache_key u); [by rewrite H in Hd|].
  destruct (requests_get _ _ _) as [resp|e].
  - destruct (status_code resp =? 200); by rewrite H in Hd.
  - rewrite H in Hd. destruct (stdout_write _ _) as [[]|x'] eqn:Hp; [done|].
    injection Hd as -> <-. eauto.
Qed.

Lemma download_image_accepted (u : string) (w : world) :
  (forall line, stdout_write (length (net_log w ++ [u])) line = Ok tt) ->
  exists r w', download_image requests_get stdout_write u w = (Ok r, w').
Proof.
  intros Hp.
  destruct (download_image requests_get stdout_write u w) as [[r|x] w'] eqn:Hd;
    [eauto|].
  apply download_image_raise in Hd as (_ & _ & e & _ & Hx).
  rewrite Hp in Hx. discriminate.
Qed.

(** C9: a call of [download_image] that returns [None] leaves the cache as
    it was; the cache changes only when the network answered with status
    200, and then by the insertion of that one record. *)
Theorem failed_fetch_leaves_cache (u : string) (w w' : world) (r : result (option string)) :
  download_image requests_get stdout_write u w = (r, w') ->
  (r = Ok None -> image_cache w' = image_cache w) /\
  (image_cache w' <> image_cache w ->
   exists resp,
     requests_get (length (net_log w)) u 10 = Ok resp /\
     status_code resp = 200 /\
     image_cache w' = <[cache_key u := Base64.b64encode (content resp)]> (image_cache w)).
Proof.
  intros Hd. pose proof (download_image_cases u w) as H.
  destruct (image_cache w !! cache_key u) eqn:Hk.
  { rewrite H in Hd. injection Hd as <- <-. by split. }
  destruct (requests_get _ _ _) as [resp|e].
  2:{ rewrite H in Hd. destruct (stdout_write _ _); injection Hd as <- <-; by split. }
  destruct (status_code resp =? 200) eqn:Hs.
  2:{ rewrite H in Hd. injection Hd as <- <-. by split. }
  rewrite H in Hd. injection Hd as <- <-. split; [done|].
  destruct (size (image_cache w) <? 20)%nat; [|done].
  intros _. exists resp. apply Z.eqb_eq in Hs. done.
Qed.

(** C5, as the code has it: the result built for an entry has the entry's
    location as url when the fetch returned nothing or the empty string and
    the empty url otherwise; the fetched text, or the empty string, as data;
    the entry's title, caption and alt text; and "wikimedia" as source. A
    result is built whenever the fetch returns, which it does whenever the
    console accepts what is printed; what the fetch raises, the turn of the
    loop raises. *)
Theorem image_result_fields (img : ImageEntry) (w : world) :
  (forall image_data w',
     download_image requests_get stdout_write (url img) w = (Ok image_data, w') ->
     exists res,
       process_image requests_get stdout_write img w = (Ok res, w') /\
       Out.url res = (match image_data with
                      | None | Some "" => url img
                      | Some _ => ""
                      end) /\
       Out.data res = (match image_data with
                       | None => ""
                       | Some encoded => encoded
                       end) /\
       Out.title res = title img /\
       Out.educational_caption res = caption img /\
       Out.alt_text res = alt_text img /\
       Out.source res = "wikimedia") /\
  ((forall line, stdout_write (length (net_log w ++ [url img])) line = Ok tt) ->
   exists image_data w',
     download_image requests_get stdout_write (url img) w = (Ok image_data, w')) /\
  (forall x w',
     download_image requests_get stdout_write (url img) w = (Raise x, w') ->
     process_image requests_get stdout_write img w = (Raise x, w')).
Proof.
  split; [|split].
  - intros d w' Hd. exists (image_result img d).
    unfold process_image, bind. rewrite Hd. split; [done|].
    destruct d as [[|c s]|]; done.
  - apply download_image_accepted.
  - intros x w' Hd. unfold process_image, bind. by rewrite Hd.
Qed.

End FetchCache.

(** ** The request handler *)

Section Handler.

Variable requests_get : nat -> string -> Z -> result response.
Variable stdout_write : nat -> string -> result unit.

(** C6: the handler never raises. Whatever is raised while the request is
    handled, from reading the body onwards, is answered with success false,
    no images and the text of the exception as error; a body that cannot be
    decoded is one such case. *)
Theorem fetch_image_never_raises (request_json : result pyval) (w : world) :
  (exists answer w', fetch_image requests_get stdout_write request_json w = (Ok answer, w')) /\
  (forall e w',
     fetch_image_body requests_get stdout_write request_json w = (Raise e, w') ->
     fetch_image requests_get stdout_write request_json w = (Ok (failure (exn_str e)), w')) /\
  (forall e,
     request_json = Raise e ->
     fetch_image requests_get stdout_write request_json w = (Ok (failure (exn_str e)), w)).
Proof.
  split; [|split].
  - unfold fetch_image, try_except.
    destruct (fetch_image_body _ _ request_json w) as [[a|e] w']; cbn; eauto.
  - intros e w' H. unfold fetch_image, try_except. by rewrite H.
  - by intros e ->.
Qed.

Lemma slice_to_nonpositive (e : ImageEntry) (c : Z) :
  c <= 0 -> slice_to [e] (PyInt c) = Ok [].
Proof.
  intros Hc. unfold slice_to. destruct (c <? 0) eqn:Hneg.
  - replace (Z.to_nat (Z.of_nat (length [e]) + c)) with 0%nat; [done|].
    cbn [length]. lia.
  - replace c with 0 by lia. done.
Qed.

(** C10, as the code has it: when the decoded body is an object whose query
    is a string or missing, whose subject is a string, null or missing, and
    whose count is an integer that is zero or negative, the handler answers
    success true with an empty image list, and fetches nothing. *)
Theorem nonpositive_count_gives_no_images
    (data : pyval) (q : string) (s : option string) (c : Z) (w : world) :
  py_get data "query" (PyStr "") = Ok (PyStr q) ->
  py_get data "subject" PyNone = Ok (opt_str s) ->
  py_get data "count" (PyInt 1) = Ok (PyInt c) ->
  c <= 0 ->
  fetch_image requests_get stdout_write (Ok data) w
  = (Ok {| success := true; images := []; error := None |}, w).
Proof.
  intros Hq Hs Hc Hle.
  unfold fetch_image, try_except, fetch_image_body, bind, lift.
  rewrite Hq, Hs, Hc.
  destruct (find_relevant_images_one q s) as (e & -> & _).
  cbn [is_empty]. by rewrite slice_to_nonpositive.
Qed.

End Handler.

(** ** Examples: the theorems at concrete inputs, and the inputs at which
    the readings above fail *)

Section Examples.
Import Str StrFacts Scenario.

Lemma not_ci (kw q : string) :
  small_letters kw = true -> str_in kw (lower q) = false -> ~ contains_ci kw q.
Proof. intros Hkw Hf H%ci_true; [congruence | done]. Qed.

Lemma subject_rules_witness :
  no_query_rule "photosynthesis" /\
  find_relevant_images (PyStr "photosynthesis") (PyStr "Marine Biology")
  = Ok [dna_structure].
Proof.
  assert (no_query_rule "photosynthesis") as Hq.
  { unfold no_query_rule. repeat split;
      try (apply not_ci; reflexivity).
    intros [H _]. revert H. apply not_ci; reflexivity. }
  split; [exact Hq|].
  apply (proj1 (proj2 (subject_rules_then_default "photosynthesis" Hq))).
  - intros [H|H]; revert H; apply not_ci; reflexivity.
  - right. exists "Marine ", "Biology", "".
    split; [reflexivity | vm_compute; intuition].
Defined.

(** Two fetches of one location make two network calls when the first one
    fails, and also when it succeeds while the cache is full. *)
Lemma two_fetches_two_calls :
  ~ one_call_for_two_fetches /\
  calls_made (fetch_twice not_found accepting (location 0)) startup = 2%nat /\
  calls_made (fetch_twice serving accepting (location 20)) (run serving accepting twenty_fetches) = 2%nat.
Proof.
  assert (calls_made (fetch_twice not_found accepting (location 0)) startup = 2%nat) as H404
    by (vm_compute; reflexivity).
  split; [|split; [exact H404 | vm_compute; reflexivity]].
  intros H. specialize (H not_found accepting (location 0) startup).
  rewrite H404 in H. lia.
Qed.

Lemma second_fetch_witness :
  download_image serving accepting (location 0)
    (snd (download_image serving accepting (location 0) startup))
  = (Ok (Some "YWJj"), snd (download_image serving accepting (location 0) startup)) /\
  (calls_made (fetch_twice serving accepting (location 0)) startup <= 1)%nat.
Proof.
  apply (second_fetch_is_served_from_cache serving accepting (location 0) startup).
  - vm_compute. reflexivity.
  - right. vm_compute. lia.
Defined.

Lemma cache_capacity_witness :
  size (image_cache (run serving accepting twenty_fetches)) = 20%nat /\
  exists w1,
    download_image serving accepting (location 20) (run serving accepting twenty_fetches)
    = (Ok (Some "YWJj"), w1) /\
    image_cache w1 = image_cache (run serving accepting twenty_fetches) /\
    net_log w1 = net_log (run serving accepting twenty_fetches) ++ [location 20] /\
    net_log (snd (download_image serving accepting (location 20) w1))
    = net_log w1 ++ [location 20].
Proof.
  split; [vm_compute; reflexivity|].
  apply (proj2 (proj2 (cache_capacity serving accepting twenty_fetches))
           (location 20) {| status_code := 200; content := encode "abc" |}).
  - vm_compute. reflexivity.
  - vm_compute. reflexivity.
  - reflexivity.
  - reflexivity.
Defined.

(** A status 200 answer with an empty body: the fetch returns the empty
    string, which is not [None], and the result's url is the location. *)
Lemma empty_body_keeps_url : ~ url_iff_absent.
Proof.
  intros H.
  assert (download_image serving_nothing accepting (url shakespeare_portrait) startup
          = (Ok (Some ""),
             snd (download_image serving_nothing accepting (url shakespeare_portrait) startup)))
    as Hd by (vm_compute; reflexivity).
  assert (process_image serving_nothing accepting shakespeare_portrait startup
          = (Ok (image_result shakespeare_portrait (Some "")),
             snd (download_image serving_nothing accepting (url shakespeare_portrait) startup)))
    as Hp by (vm_compute; reflexivity).
  specialize (H _ _ _ _ _ _ _ Hd Hp). vm_compute in H. discriminate H.
Qed.

Lemma image_result_fields_witness :
  exists res,
    process_image serving_nothing accepting shakespeare_portrait startup
    = (Ok res, snd (download_image serving_nothing accepting
                      (url shakespeare_portrait) startup)) /\
    Out.url res = url shakespeare_portrait /\
    Out.data res = "" /\
    Out.title res = "William Shakespeare Portrait" /\
    Out.educational_caption res = "William Shakespeare - The Bard" /\
    Out.alt_text res = "Portrait of William Shakespeare" /\
    Out.source res = "wikimedia".
Proof.
  apply (proj1 (image_result_fields serving_nothing accepting
                  shakespeare_portrait startup) (Some "")).
  vm_compute. reflexivity.
Defined.

Lemma fetch_image_never_raises_witness :
  fetch_image unreachable accepting (body [("query", PyInt 5)]) startup
  = (Ok (failure "'int' object has no attribute 'lower'"), startup).
Proof.
  apply (proj1 (proj2 (fetch_image_never_raises unreachable accepting
                         (body [("query", PyInt 5)]) startup))
           (AttributeError (PyInt 5) "lower") startup).
  reflexivity.
Defined.

(** C7: the transport raises with a message that has a letter outside
    ASCII and the console's encoding is ASCII: the [print] in the [except]
    clause raises [UnicodeEncodeError], which leaves [download_image] instead
    of the result [None]; the handler then answers the whole request with
    success false. *)
Theorem download_image_raises_when_print_fails :
  download_image (refusing accented) ascii_console (location 0) startup
  = (Raise (Exn "UnicodeEncodeError"
       "'ascii' codec can't encode character '\xe9' in position 59: ordinal not in range(128)"),
     called (location 0) startup) /\
  fst (fetch_image (refusing accented) ascii_console
         (body [("query", PyStr "shakespeare")]) startup)
  = Ok (failure
       "'ascii' codec can't encode character '\xe9' in position 129: ordinal not in range(128)").
Proof. split; vm_compute; reflexivity. Qed.

Lemma failed_fetch_witness :
  image_cache (snd (download_image not_found accepting (location 0) startup))
  = image_cache startup.
Proof.
  apply (proj1 (failed_fetch_leaves_cache not_found accepting (location 0) startup
                  (snd (download_image not_found accepting (location 0) startup))
                  (Ok None) ltac:(vm_compute; reflexivity))).
  reflexivity.
Defined.

(** A body that decodes, with count 0 and a number as query. *)
Lemma number_as_query_fails : ~ nonpositive_count_always_succeeds.
Proof.
  intros H.
  specialize (H not_found accepting
                (PyDict [("query", PyInt 5); ("count", PyInt 0)]) 0 startup
                eq_refl ltac:(lia)).
  vm_compute in H. discriminate H.
Qed.

Lemma nonpositive_count_witness :
  fetch_image serving accepting
    (body [("query", PyStr "solar system"); ("count", PyInt (-2))]) startup
  = (Ok {| success := true; images := []; error := None |}, startup).
Proof.
  apply (nonpositive_count_gives_no_images serving accepting _ "solar system" None (-2)
           startup).
  - reflexivity.
  - reflexivity.
  - reflexivity.
  - lia.
Defined.

End Examples.

(** ** Further properties of the resolver *)

Section ResolverMore.
Import Str StrFacts.

Lemma resolved_by_query (q : string) (subject : pyval) (e : ImageEntry) :
  query_rules (lower q) [] = Ok [e] ->
  find_relevant_images (PyStr q) subject = Ok [e].
Proof.
  intros H. unfold find_relevant_images, py_lower, rbind at 1. by rewrite H.
Qed.

(** X2: a query that contains "dicksee" resolves to the Dicksee entry
    whatever else it contains and whatever the subject is. *)
Theorem dicksee_comes_first (q : string) (subject : pyval) :
  contains_ci "dicksee" q ->
  find_relevant_images (PyStr q) subject = Ok [romeo_juliet_dicksee].
Proof.
  intros H. unfold find_relevant_images, py_lower, rbind at 1. unfold query_rules.
  by rewrite (ci_true "dicksee") by done.
Qed.

Lemma dicksee_witness :
  find_relevant_images (PyStr "Shakespeare's Juliet, by Dicksee") (PyInt 7)
  = Ok [romeo_juliet_dicksee].
Proof.
  apply dicksee_comes_first.
  exists "Shakespeare's Juliet, by ", "Dicksee", "".
  split; [reflexivity | vm_compute; intuition].
Defined.

(** X3: a query that contains "juliet" but neither "romeo" nor "dicksee"
    resolves to the Waterhouse entry, also when it contains "shakespeare" or
    another later keyword, and whatever the subject is. *)
Theorem juliet_without_romeo (q : string) (subject : pyval) :
  contains_ci "juliet" q -> ~ contains_ci "romeo" q -> ~ contains_ci "dicksee" q ->
  find_relevant_images (PyStr q) subject = Ok [romeo_juliet_waterhouse].
Proof.
  intros Hj Hr Hd. unfold find_relevant_images, py_lower, rbind at 1.
  unfold query_rules.
  by rewrite (ci_true "juliet"), (ci_false "romeo"), (ci_false "dicksee") by done.
Qed.

(** X4: for a query that contains neither "dicksee" nor "juliet", the
    remaining keyword rules apply in their order: "shakespeare" gives the
    portrait; otherwise "solar" or "planet" gives the solar system; otherwise
    "dna" or "genetic" gives the DNA entry; each whatever the subject is. *)
Theorem later_rules_in_order (q : string) (subject : pyval) :
  ~ contains_ci "dicksee" q -> ~ contains_ci "juliet" q ->
  (contains_ci "shakespeare" q ->
   find_relevant_images (PyStr q) subject = Ok [shakespeare_portrait]) /\
  (~ contains_ci "shakespeare" q ->
   contains_ci "solar" q \/ contains_ci "planet" q ->
   find_relevant_images (PyStr q) subject = Ok [solar_system]) /\
  (~ contains_ci "shakespeare" q ->
   ~ (contains_ci "solar" q \/ contains_ci "planet" q) ->
   contains_ci "dna" q \/ contains_ci "genetic" q ->
   find_relevant_images (PyStr q) subject = Ok [dna_structure]).
Proof.
  intros Hd Hj. repeat split.
  - intros H. apply resolved_by_query. unfold query_rules.
    by rewrite (ci_false "dicksee"), (ci_false "juliet"), (ci_true "shakespeare"),
      andb_false_r by done.
  - intros Hs H. apply resolved_by_query. unfold query_rules.
    rewrite (ci_false "dicksee"), (ci_false "juliet"), (ci_false "shakespeare"),
      andb_false_r by done.
    destruct H as [H|H];
      [rewrite (ci_true "solar") by done | rewrite (ci_true "planet") by done];
      [done | by rewrite orb_true_r].
  - intros Hs Hn H. apply resolved_by_query. unfold query_rules.
    rewrite (ci_false "dicksee"), (ci_false "juliet"), (ci_false "shakespeare"),
      (ci_false "solar"), (ci_false "planet"), andb_false_r by tauto.
    destruct H as [H|H];
      [rewrite (ci_true "dna") by done | rewrite (ci_true "genetic") by done];
      [done | by rewrite orb_true_r].
Qed.

Ltac case_keywords :=
  repeat match goal with
         | |- context [str_in ?k ?x] => destruct (str_in k x)
         end.

Lemma query_rules_some (ql : string) :
  str_in "dicksee" ql || str_in "juliet" ql || str_in "shakespeare" ql
  || str_in "solar" ql || str_in "planet" ql || str_in "dna" ql
  || str_in "genetic" ql = true ->
  exists e, query_rules ql [] = Ok [e].
Proof.
  unfold query_rules. case_keywords; cbn; intros H; eauto; discriminate.
Qed.

Lemma some_query_rule_entry (q : string) :
  some_query_rule q -> exists e, query_rules (lower q) [] = Ok [e].
Proof.
  intros H. apply query_rules_some.
  repeat rewrite orb_true_iff.
  destruct H as [H|[[_ H]|[H|[H|[H|[H|[H|H]]]]]]];
    apply ci_true in H; try done; tauto.
Qed.

(** X5: when a keyword rule applies to the query, the subject plays no part:
    any value given as subject, of any type, leads to the result obtained
    without a subject. *)
Theorem subject_unused_when_query_matches (q : string) (subject : pyval) :
  some_query_rule q ->
  find_relevant_images (PyStr q) subject = find_relevant_images (PyStr q) PyNone.
Proof.
  intros H. destruct (some_query_rule_entry q H) as [e He].
  by rewrite (resolved_by_query q subject e He), (resolved_by_query q PyNone e He).
Qed.

Lemma lower_char_idem (c : ascii) : lower_char (lower_char c) = lower_char c.
Proof.
  unfold lower_char at 2 3. destruct (is_upper c) eqn:Hu.
  - apply is_upper_iff in Hu. unfold lower_char.
    destruct (is_upper (ascii_of_N _)) eqn:Hu2; [|done].
    apply is_upper_iff in Hu2. rewrite N_ascii_embedding in Hu2 by lia. lia.
  - unfold lower_char. by rewrite Hu.
Qed.

Lemma lower_idem (s : string) : lower (lower s) = lower s.
Proof. induction s as [|c s IH]; cbn; [done | by rewrite lower_char_idem, IH]. Qed.

Lemma lower_empty (s : string) : String.eqb (lower s) "" = String.eqb s "".
Proof. by destruct s. Qed.

(** X6: the resolver does not see letter case: lowering the query and the
    subject beforehand changes nothing in the result. *)
Theorem resolver_ignores_case (q : string) (subject : option string) :
  find_relevant_images (PyStr (lower q)) (opt_str (lower <$> subject))
  = find_relevant_images (PyStr q) (opt_str subject).
Proof.
  unfold find_relevant_images, py_lower, rbind at 1 5. rewrite lower_idem.
  destruct subject as [s|]; [|done]. cbn [fmap option_fmap option_map opt_str truthy].
  by rewrite lower_empty, lower_idem.
Qed.

(** X7: a query that is not a string makes the resolver raise
    [AttributeError] for the missing [lower], whatever the subject is. *)
Theorem query_must_be_a_string (query subject : pyval) :
  is_str query = false ->
  find_relevant_images query subject = Raise (AttributeError query "lower").
Proof. by destruct query. Qed.

(** X8: when no keyword rule applies to the query, a subject that is true
    as a condition but not a string makes the resolver raise
    [AttributeError]; a subject that is false as a condition (none, false,
    zero, an empty string, list or object) gives the default portrait. *)
Theorem subject_of_another_type (q : string) (subject : pyval) :
  no_query_rule q ->
  (truthy subject = true -> is_str subject = false ->
   find_relevant_images (PyStr q) subject = Raise (AttributeError subject "lower")) /\
  (truthy subject = false ->
   find_relevant_images (PyStr q) subject = Ok [shakespeare_portrait]).
Proof.
  intros Hq. split; intros Ht;
    unfold find_relevant_images, py_lower at 1, rbind at 1;
    rewrite (query_rules_none q Hq); unfold rbind at 1; cbn [is_empty andb];
    rewrite Ht.
  - intros Hs. destruct subject; first [discriminate Hs | reflexivity].
  - reflexivity.
Qed.

Lemma find_relevant_images_any (query subject : pyval) (r : list ImageEntry) :
  find_relevant_images query subject = Ok r ->
  exists e, r = [e] /\ In e (map snd EDUCATIONAL_IMAGES).
Proof.
  destruct query as [| | | |q| |]; try discriminate.
  unfold find_relevant_images, py_lower at 1, rbind at 1.
  destruct (query_rules_at_most_one (lower q)) as (r1 & -> & [->|(e & -> & He)]).
  2:{ cbn. intros [= <-]. eauto. }
  unfold rbind at 1. cbn [is_empty andb].
  destruct (truthy subject).
  2:{ cbn. intros [= <-]. eexists. split; [done | cbn; tauto]. }
  destruct subject as [| | | |s| |]; try discriminate.
  unfold py_lower, rbind at 2.
  destruct (subject_rules_at_most_one (lower s)) as (r2 & -> & [->|(e & -> & He)]).
  - cbn. intros [= <-]. eexists. split; [done | cbn; tauto].
  - cbn. intros [= <-]. eauto.
Qed.

(** X9: whatever values are passed as query and subject, a result that the
    resolver returns is a list of exactly one catalog entry; it never
    returns an empty list. *)
Theorem resolver_result_is_one_entry (query subject : pyval) (r : list ImageEntry) :
  find_relevant_images query subject = Ok r ->
  exists e, r = [e] /\ In e (map snd EDUCATIONAL_IMAGES).
Proof. apply find_relevant_images_any. Qed.

End ResolverMore.

(** ** Further properties of the fetch cache *)

Section FetchCacheMore.

Variable requests_get : nat -> string -> Z -> result response.
Variable stdout_write : nat -> string -> result unit.

Lemma download_image_hit (u : string) (w : world) (v : string) :
  image_cache w !! cache_key u = Some v ->
  download_image requests_get stdout_write u w = (Ok (Some v), w).
Proof.
  intros Hk. pose proof (download_image_cases requests_get stdout_write u w) as H.
  by rewrite Hk in H.
Qed.

Lemma download_image_log (u : string) (w : world) :
  net_log (snd (download_image requests_get stdout_write u w))
  = match image_cache w !! cache_key u with
    | Some _ => net_log w
    | None => net_log w ++ [u]
    end.
Proof.
  pose proof (download_image_cases requests_get stdout_write u w) as H.
  destruct (image_cache w !! cache_key u); [by rewrite H|].
  destruct (requests_get _ _ _) as [resp|e];
    [|rewrite H; by destruct (stdout_write _ _)].
  destruct (status_code resp =? 200); [|by rewrite H].
  rewrite H. by destruct (size (image_cache w) <? 20)%nat.
Qed.

(** X10: a location whose fingerprint is in the cache is answered with the
    stored text, whatever the transport would do: no network call is made
    and nothing changes. *)
Theorem cache_hit_returns_stored (u : string) (w : world) (v : string) :
  image_cache w !! cache_key u = Some v ->
  download_image requests_get stdout_write u w = (Ok (Some v), w).
Proof. apply download_image_hit. Qed.




Lemma download_image_cache (u : string) (w : world) :
  image_cache (snd (download_image requests_get stdout_write u w)) = image_cache w \/
  image_cache w !! cache_key u = None /\
  exists v, image_cache (snd (download_image requests_get stdout_write u w))
            = <[cache_key u := v]> (image_cache w).
Proof.
  pose proof (download_image_cases requests_get stdout_write u w) as H.
  destruct (image_cache w !! cache_key u); [left; by rewrite H|].
  destruct (requests_get _ _ _) as [resp|e];
    [|left; rewrite H; by destruct (stdout_write _ _)].
  destruct (status_code resp =? 200); [|left; by rewrite H].
  rewrite H. destruct (size (image_cache w) <? 20)%nat; [right; eauto | by left].
Qed.

(** What every call of [download_image] keeps true, [fetch_image] and
    [health] keep true, and it holds all along a run. *)
Lemma process_images_invariant (P : world -> Prop) :
  (forall u w, P w -> P (snd (download_image requests_get stdout_write u w))) ->
  forall imgs w, P w -> P (snd (mapM (process_image requests_get stdout_write) imgs w)).
Proof.
  intros Hstep imgs. induction imgs as [|img imgs IH]; intros w Hw; [done|].
  cbn [mapM]. unfold bind at 1. unfold process_image at 1. unfold bind at 1.
  pose proof (Hstep (url img) w Hw) as Hd.
  destruct (download_image requests_get stdout_write (url img) w) as [[d|e] w1];
    cbn [snd] in *; [|done].
  unfold ret at 1. unfold bind at 1. specialize (IH w1 Hd).
  by destruct (mapM _ imgs w1) as [[rs|e] w2].
Qed.

Lemma fetch_image_invariant (P : world -> Prop) :
  (forall u w, P w -> P (snd (download_image requests_get stdout_write u w))) ->
  forall r w, P w -> P (snd (fetch_image requests_get stdout_write r w)).
Proof.
  intros Hstep r w Hw.
  unfold fetch_image, try_except, fetch_image_body, bind, lift.
  destruct r as [data|e]; [|done].
  destruct (py_get data "query" _) as [query|e]; [|done].
  destruct (py_get data "subject" _) as [subject|e]; [|done].
  destruct (py_get data "count" _) as [count|e]; [|done].
  destruct (find_relevant_images query subject) as [imgs|e]; [|done].
  destruct (is_empty imgs); [done|].
  destruct (slice_to imgs count) as [sel|e]; [|done].
  pose proof (process_images_invariant P Hstep sel w Hw) as Hk.
  by destruct (mapM _ sel w) as [[rs|e] w1].
Qed.

Lemma run_invariant (P : world -> Prop) :
  P startup ->
  (forall u w, P w -> P (snd (download_image requests_get stdout_write u w))) ->
  forall calls, P (run requests_get stdout_write calls).
Proof.
  intros H0 Hstep calls. unfold run.
  induction calls as [|c calls IH] using rev_ind; [done|].
  rewrite fold_left_app. cbn [fold_left]. destruct c; cbn [run_call].
  - by apply Hstep.
  - by apply fetch_image_invariant.
  - done.
Qed.

(** X14: at every state reached from start-up, each record of the cache is
    stored under the fingerprint of a location that was requested from the
    network before. *)
Theorem cache_records_come_from_fetches (calls : list call) (k : string) :
  is_Some (image_cache (run requests_get stdout_write calls) !! k) ->
  exists u, In u (net_log (run requests_get stdout_write calls)) /\ k = cache_key u.
Proof.
  revert k.
  apply (run_invariant (fun w => forall k, is_Some (image_cache w !! k) ->
                          exists u, In u (net_log w) /\ k = cache_key u)).
  - intros k [v Hv]. cbn in Hv. by rewrite lookup_empty in Hv.
  - intros u w Hw k Hk.
    pose proof (download_image_log u w) as Hn.
    destruct (download_image_cache u w) as [Heq|[Hc [v Heq]]]; rewrite Heq in Hk.
    + destruct (Hw k Hk) as (x & Hx & ->). exists x. split; [|done].
      rewrite Hn. destruct (image_cache w !! cache_key u); [done|].
      apply in_or_app. by left.
    + rewrite Hn, Hc. destruct (decide (cache_key u = k)) as [<-|Hne].
      * exists u. split; [|done]. apply in_or_app. right. by left.
      * rewrite lookup_insert_ne in Hk by done.
        destruct (Hw k Hk) as (x & Hx & ->). exists x. split; [|done].
        apply in_or_app. by left.
Qed.

Lemma keeps_size (w w' : world) :
  keeps w w' -> (size (image_cache w) <= size (image_cache w'))%nat.
Proof.
  intros [Hk _]. apply map_subseteq_size, map_subseteq_spec. exact Hk.
Qed.

(** X15: [health] reports the number of cached records and changes
    nothing, and the number it reports never goes down from one operation to
    the next: records are only ever added. *)
Theorem health_never_decreases (w : world) (c : call) :
  exists n m,
    health w = (Ok n, w) /\
    health (run_call requests_get stdout_write w c) = (Ok m, run_call requests_get stdout_write w c) /\
    n = size (image_cache w) /\ (n <= m)%nat.
Proof.
  exists (size (image_cache w)), (size (image_cache (run_call requests_get stdout_write w c))).
  repeat split. apply keeps_size, run_call_keeps.
Qed.

End FetchCacheMore.

(** ** The fingerprint and the encoded text *)

Section Encodings.

Lemma le_bytes_length (n : nat) (x : Z) : length (MD5.le_bytes n x) = n.
Proof. unfold MD5.le_bytes. by rewrite length_map, length_seq. Qed.

Lemma le_bytes_range (n : nat) (x : Z) :
  Forall (fun b => 0 <= b < 256) (MD5.le_bytes n x).
Proof.
  unfold MD5.le_bytes. apply List.Forall_forall. intros b Hb.
  apply in_map_iff in Hb as (i & <- & _). by apply Z.mod_pos_bound.
Qed.

Lemma hex_digit_ok (n : Z) : 0 <= n < 16 -> is_hex_digit (MD5.hex_digit n) = true.
Proof.
  intros H.
  assert (forallb (fun i => is_hex_digit (MD5.hex_digit (Z.of_nat i))) (seq 0 16)
          = true) as Hall by reflexivity.
  rewrite forallb_forall in Hall. specialize (Hall (Z.to_nat n)).
  rewrite Z2Nat.id in Hall by lia. apply Hall, in_seq. lia.
Qed.

Lemma hex_format (bs : list Z) :
  Forall (fun b => 0 <= b < 256) bs ->
  String.length (MD5.hex bs) = (2 * length bs)%nat /\
  all_chars is_hex_digit (MD5.hex bs) = true.
Proof.
  induction 1 as [|b bs Hb _ [IHl IHc]]; [done|]. cbn [MD5.hex String.length length all_chars].
  split; [lia|].
  rewrite !hex_digit_ok, IHc; [done | |].
  - apply Z.mod_pos_bound. lia.
  - split; [apply Z.div_pos; lia | apply Z.div_lt_upper_bound; lia].
Qed.

(** X16: the fingerprint under which a location is cached is always a text
    of 32 characters, each a digit or a letter from a to f. *)
Theorem cache_key_format (u : string) :
  String.length (cache_key u) = 32%nat /\
  all_chars is_hex_digit (cache_key u) = true.
Proof.
  unfold cache_key, MD5.hexdigest, MD5.digest.
  destruct (MD5.blocks _ _ _) as [[[a b] c] d].
  destruct (hex_format (MD5.le_bytes 4 a ++ MD5.le_bytes 4 b ++
                        MD5.le_bytes 4 c ++ MD5.le_bytes 4 d)) as [Hl Hc].
  - repeat apply Forall_app_2; apply le_bytes_range.
  - split; [|done]. by rewrite Hl, !length_app, !le_bytes_length.
Qed.

Lemma by_threes {A} (P : list A -> Prop) :
  P [] -> (forall a, P [a]) -> (forall a b, P [a; b]) ->
  (forall a b c t, P t -> P (a :: b :: c :: t)) ->
  forall l, P l.
Proof.
  intros H0 H1 H2 H3.
  assert (forall l, P l /\ (forall a, P (a :: l)) /\ (forall a b, P (a :: b :: l)))
    as H; [|intros l; apply H].
  induction l as [|x l (IH0 & IH1 & IH2)]; [by auto|].
  split; [exact (IH1 x)|]. split; [exact (fun a => IH2 a x)|].
  intros a b. by apply H3.
Qed.

(** X17: the text returned for a fetched body of [n] bytes has
    [4 * ceil (n / 3)] characters; it is empty only for an empty body. *)
Theorem encoded_length (body : list byte) :
  String.length (Base64.b64encode body) = (4 * ((length body + 2) / 3))%nat /\
  (Base64.b64encode body = "" <-> body = []).
Proof.
  induction body as [|a|a b|a b c t [IH _]] using by_threes.
  - done.
  - split; [done | split; discriminate].
  - split; [done | split; discriminate].
  - split; [|split; discriminate].
    cbn [Base64.b64encode String.length length]. rewrite IH.
    replace (S (S (S (length t))) + 2)%nat with (1 * 3 + (length t + 2))%nat by lia.
    rewrite Nat.div_add_l by done. lia.
Qed.

End Encodings.

(** ** Further properties of the request handler *)

Section HandlerMore.

Variable requests_get : nat -> string -> Z -> result response.
Variable stdout_write : nat -> string -> result unit.

Lemma slice_to_single (e : ImageEntry) (count : pyval) (sel : list ImageEntry) :
  slice_to [e] count = Ok sel -> sel = [] \/ sel = [e].
Proof.
  assert (forall n, firstn n [e] = [] \/ firstn n [e] = [e]) as Hn
    by (intros [|[|n]]; cbn; tauto).
  unfold slice_to. destruct count as [|b|z| | | |]; try discriminate.
  - intros [= <-]. by right.
  - intros [= <-]. destruct (_ <? 0); apply Hn.
  - intros [= <-]. destruct (_ <? 0); apply Hn.
Qed.

Lemma process_one (e : ImageEntry) (w : world) :
  mapM (process_image requests_get stdout_write) [e] w
  = match download_image requests_get stdout_write (url e) w with
    | (Ok d, w') => (Ok [image_result e d], w')
    | (Raise x, w') => (Raise x, w')
    end.
Proof.
  cbn [mapM]. unfold bind, process_image, bind, ret.
  by destruct (download_image requests_get stdout_write (url e) w) as [[d|x] w'].
Qed.

(** What the handler does before the loop depends on the request alone: it
    fails with a message, or selects no entry, or selects one catalog entry
    and fetches its location. *)
Lemma fetch_image_selection (r : result pyval) :
  (exists msg, forall w,
     fetch_image requests_get stdout_write r w = (Ok (failure msg), w)) \/
  (forall w, fetch_image requests_get stdout_write r w = (Ok (answer []), w)) \/
  (exists e, In e (map snd EDUCATIONAL_IMAGES) /\
     forall w,
       fetch_image requests_get stdout_write r w
       = match download_image requests_get stdout_write (url e) w with
         | (Ok d, w') => (Ok (answer [image_result e d]), w')
         | (Raise x, w') => (Ok (failure (exn_str x)), w')
         end).
Proof.
  unfold fetch_image, try_except, fetch_image_body, bind, lift.
  destruct r as [data|x]; [|left; by exists (exn_str x)].
  destruct (py_get data "query" _) as [query|x]; [|left; by exists (exn_str x)].
  destruct (py_get data "subject" _) as [subject|x]; [|left; by exists (exn_str x)].
  destruct (py_get data "count" _) as [count|x]; [|left; by exists (exn_str x)].
  destruct (find_relevant_images query subject) as [imgs|x] eqn:Hf;
    [|left; by exists (exn_str x)].
  apply find_relevant_images_any in Hf as (e & -> & He). cbn [is_empty].
  destruct (slice_to [e] count) as [sel|x] eqn:Hs; [|left; by exists (exn_str x)].
  apply slice_to_single in Hs as [-> | ->]; [right; left; done|].
  right. right. exists e. split; [done|]. intros w. rewrite process_one.
  by destruct (download_image requests_get stdout_write (url e) w) as [[d|x] w'].
Qed.

Lemma fetch_image_shape (r : result pyval) (w : world) :
  (exists msg, fetch_image requests_get stdout_write r w = (Ok (failure msg), w)) \/
  fetch_image requests_get stdout_write r w = (Ok (answer []), w) \/
  (exists e d w',
     In e (map snd EDUCATIONAL_IMAGES) /\
     download_image requests_get stdout_write (url e) w = (Ok d, w') /\
     fetch_image requests_get stdout_write r w
     = (Ok (answer [image_result e d]), w')) \/
  (exists e x w',
     In e (map snd EDUCATIONAL_IMAGES) /\
     download_image requests_get stdout_write (url e) w = (Raise x, w') /\
     fetch_image requests_get stdout_write r w = (Ok (failure (exn_str x)), w')).
Proof.
  destruct (fetch_image_selection r) as [[msg H]|[H|(e & He & H)]].
  - left. by exists msg.
  - right. by left.
  - right. right.
    destruct (download_image requests_get stdout_write (url e) w)
      as [[d|x] w'] eqn:Hd;
      [left; exists e, d, w' | right; exists e, x, w'];
      (split; [done|]); (split; [done|]); by rewrite H, Hd.
Qed.

(** X18: every request is answered in one of four ways: a failure with a
    message, no image and nothing changed; a success with no image and
    nothing changed; a success with exactly one image, built from one
    catalog entry and the outcome of fetching its location; or, when that
    fetch raised, a failure with the text of its exception. There are never
    two images. *)
Theorem handler_answers (r : result pyval) (w : world) :
  (exists msg, fetch_image requests_get stdout_write r w = (Ok (failure msg), w)) \/
  fetch_image requests_get stdout_write r w = (Ok (answer []), w) \/
  (exists e d w',
     In e (map snd EDUCATIONAL_IMAGES) /\
     download_image requests_get stdout_write (url e) w = (Ok d, w') /\
     fetch_image requests_get stdout_write r w
     = (Ok (answer [image_result e d]), w')) \/
  (exists e x w',
     In e (map snd EDUCATIONAL_IMAGES) /\
     download_image requests_get stdout_write (url e) w = (Raise x, w') /\
     fetch_image requests_get stdout_write r w = (Ok (failure (exn_str x)), w')).
Proof. apply fetch_image_shape. Qed.

Lemma catalog_url_known (e : ImageEntry) :
  In e (map snd EDUCATIONAL_IMAGES) -> In (url e) catalog_urls.
Proof.
  intros He. unfold catalog_urls. apply in_map_iff in He as (item & <- & Hi).
  apply in_map_iff. by exists item.
Qed.


(** X20: handling a request makes at most one network call, and only for
    the location of a catalog entry; nothing the request carries can make
    the service fetch another location. *)
Theorem handler_fetches_catalog_only (r : result pyval) (w : world) :
  net_log (snd (fetch_image requests_get stdout_write r w)) = net_log w \/
  exists u, In u catalog_urls /\
            net_log (snd (fetch_image requests_get stdout_write r w)) = net_log w ++ [u].
Proof.
  assert (forall e res w1,
            In e (map snd EDUCATIONAL_IMAGES) ->
            download_image requests_get stdout_write (url e) w = (res, w1) ->
            net_log w1 = net_log w \/
            exists u, In u catalog_urls /\ net_log w1 = net_log w ++ [u]) as Hlog.
  { intros e res w1 He Hd.
    pose proof (download_image_log requests_get stdout_write (url e) w) as Hn.
    rewrite Hd in Hn. cbn [snd] in Hn. rewrite Hn.
    destruct (image_cache w !! cache_key (url e)); [by left|].
    right. exists (url e). split; [by apply catalog_url_known | done]. }
  destruct (fetch_image_shape r w)
    as [[msg H1]|[H1|[(e & d & w1 & He & Hd & H1)|(e & x & w1 & He & Hd & H1)]]];
    rewrite H1; cbn [snd]; [by left | by left | |]; by eapply Hlog.
Qed.

Lemma catalog_url_nonempty (e : ImageEntry) :
  In e (map snd EDUCATIONAL_IMAGES) -> url e <> "".
Proof.
  cbn. intros H. repeat (destruct H as [<-|H]; [discriminate|]). destruct H.
Qed.

(** X21: each image of an answer carries either the encoded bytes and an
    empty url, or an empty data field and the location of its catalog
    entry as url: exactly one of the two fields is filled. *)
Theorem image_has_data_or_url (r : result pyval) (w w' : world) (a : envelope)
    (img : Out.ImageResult) :
  fetch_image requests_get stdout_write r w = (Ok a, w') ->
  In img (images a) ->
  (Out.data img <> "" /\ Out.url img = "") \/
  (Out.data img = "" /\ In (Out.url img) catalog_urls /\ Out.url img <> "").
Proof.
  intros H Hin.
  destruct (fetch_image_shape r w)
    as [[msg H1]|[H1|[(e & d & w1 & He & _ & H1)|(e & x & w1 & _ & _ & H1)]]];
    rewrite H1 in H; injection H as <- <-; cbn in Hin; try done.
  destruct Hin as [<-|[]]. cbn [image_result Out.data Out.url].
  pose proof (catalog_url_known e He) as Hu.
  pose proof (catalog_url_nonempty e He) as Hne.
  destruct d as [[|c s]|]; cbn; [right | left | right]; done.
Qed.

(** X22: for a body whose query is a string or missing and whose subject is
    a string, null or missing, a count that is missing, null, true or an
    integer of at least 1 selects exactly one entry, the one the resolver
    chose: when the fetch of its location returns, the answer is success
    with exactly that one image; when the fetch raises, the answer is a
    failure with the text of the exception. A count above 1 adds nothing. *)
Theorem one_image_for_positive_count
    (data count : pyval) (q : string) (s : option string) (w : world) :
  py_get data "query" (PyStr "") = Ok (PyStr q) ->
  py_get data "subject" PyNone = Ok (opt_str s) ->
  py_get data "count" (PyInt 1) = Ok count ->
  count = PyNone \/ count = PyBool true \/ (exists c, count = PyInt c /\ 1 <= c) ->
  exists e,
    find_relevant_images (PyStr q) (opt_str s) = Ok [e] /\
    (forall d w',
       download_image requests_get stdout_write (url e) w = (Ok d, w') ->
       fetch_image requests_get stdout_write (Ok data) w
       = (Ok (answer [image_result e d]), w')) /\
    (forall x w',
       download_image requests_get stdout_write (url e) w = (Raise x, w') ->
       fetch_image requests_get stdout_write (Ok data) w
       = (Ok (failure (exn_str x)), w')).
Proof.
  intros Hq Hs Hc Hcount.
  destruct (find_relevant_images_one q s) as (e & He & _).
  exists e. split; [done|].
  assert (slice_to [e] count = Ok [e]) as Hsl.
  { destruct Hcount as [->|[->|(c & -> & Hge)]]; [done | done |].
    unfold slice_to. destruct (c <? 0) eqn:Hneg; [lia|].
    destruct (Z.to_nat c) eqn:Hn; [lia|]. cbn [firstn]. by rewrite firstn_nil. }
  split; intros res w' Hd;
    unfold fetch_image, try_except, fetch_image_body, bind, lift;
    rewrite Hq, Hs, Hc, He; cbn [is_empty]; rewrite Hsl, process_one, Hd; done.
Qed.

(** X23: for such a body, a count that is a string, a fraction, a list or
    an object is answered with a failure that carries the message of the
    [TypeError] raised by the slice; nothing is fetched. *)
Theorem count_of_another_type
    (data count : pyval) (q : string) (s : option string) (w : world) :
  py_get data "query" (PyStr "") = Ok (PyStr q) ->
  py_get data "subject" PyNone = Ok (opt_str s) ->
  py_get data "count" (PyInt 1) = Ok count ->
  match count with
  | PyStr _ | PyFloat _ | PyList _ | PyDict _ => True
  | _ => False
  end ->
  fetch_image requests_get stdout_write (Ok data) w
  = (Ok (failure "slice indices must be integers or None or have an __index__ method"),
     w).
Proof.
  intros Hq Hs Hc Hcount.
  destruct (find_relevant_images_one q s) as (e & He & _).
  unfold fetch_image, try_except, fetch_image_body, bind, lift.
  rewrite Hq, Hs, Hc, He. cbn [is_empty].
  by destruct count.
Qed.

Lemma size_list_to_set_le (l : list string) :
  (size (list_to_set l : gset string) <= length l)%nat.
Proof.
  induction l as [|x l IH]; [by rewrite list_to_set_nil, size_empty|].
  rewrite list_to_set_cons, size_union_alt, size_singleton. cbn [length].
  assert (size (list_to_set l ∖ {[x]} : gset string)
          <= size (list_to_set l : gset string))%nat
    by (apply subseteq_size; intros y Hy; apply elem_of_difference in Hy; tauto).
  lia.
Qed.

Lemma catalog_key_known (e : ImageEntry) :
  In e (map snd EDUCATIONAL_IMAGES) -> cache_key (url e) ∈ catalog_keys.
Proof.
  intros He. unfold catalog_keys. apply elem_of_list_to_set, list_elem_of_In.
  apply in_map. unfold catalog_urls.
  apply in_map_iff in He as (item & <- & Hi). apply in_map_iff. by exists item.
Qed.

Lemma fetch_image_catalog_keys (r : result pyval) (w : world) :
  dom (image_cache w) ⊆ catalog_keys ->
  dom (image_cache (snd (fetch_image requests_get stdout_write r w))) ⊆ catalog_keys.
Proof.
  intros Hw.
  assert (forall e res w1,
            In e (map snd EDUCATIONAL_IMAGES) ->
            download_image requests_get stdout_write (url e) w = (res, w1) ->
            dom (image_cache w1) ⊆ catalog_keys) as Hdom.
  { intros e res w1 He Hd.
    destruct (download_image_cache requests_get stdout_write (url e) w)
      as [Heq|[_ [v Heq]]];
      rewrite Hd in Heq; cbn [snd] in Heq; rewrite Heq; [done|].
    rewrite dom_insert_L. apply union_subseteq. split; [|done].
    apply singleton_subseteq_l. by apply catalog_key_known. }
  destruct (fetch_image_shape r w)
    as [[msg H1]|[H1|[(e & d & w1 & He & Hd & H1)|(e & x & w1 & He & Hd & H1)]]];
    rewrite H1; cbn [snd]; [done | done | |]; by eapply Hdom.
Qed.

(** X24: when the cache is filled through the handler alone, it never
    holds more than five records, one per catalog entry: the limit of 20 is
    not reached that way. *)
Theorem handler_fills_at_most_five (requests : list (result pyval)) :
  (size (image_cache (run requests_get stdout_write (map CallFetchImage requests))) <= 5)%nat.
Proof.
  assert (dom (image_cache (run requests_get stdout_write (map CallFetchImage requests)))
          ⊆ catalog_keys) as H.
  { unfold run. induction requests as [|r rs IH] using rev_ind.
    - cbn. rewrite dom_empty_L. apply empty_subseteq.
    - rewrite map_app, fold_left_app. cbn [map fold_left run_call].
      by apply fetch_image_catalog_keys. }
  rewrite <- size_dom. apply subseteq_size in H.
  pose proof (size_list_to_set_le (map cache_key catalog_urls)) as Hle.
  unfold catalog_keys in H.
  change (length (map cache_key catalog_urls)) with 5%nat in Hle. lia.
Qed.

Lemma fetched_then_cached (u : string) (w w1 : world) (v : string) :
  download_image requests_get stdout_write u w = (Ok (Some v), w1) ->
  (size (image_cache w) < 20)%nat ->
  image_cache w1 !! cache_key u = Some v.
Proof.
  intros Hd Hlt. pose proof (download_image_cases requests_get stdout_write u w) as H.
  destruct (image_cache w !! cache_key u) eqn:Hk.
  - rewrite H in Hd. by injection Hd as -> ->.
  - destruct (requests_get _ _ _) as [resp|e];
      [|rewrite H in Hd; by destruct (stdout_write _ _)].
    destruct (status_code resp =? 200); [|by rewrite H in Hd].
    apply Nat.ltb_lt in Hlt. rewrite Hlt, Hd in H.
    injection H as -> ->. cbn [image_cache]. by rewrite lookup_insert_eq.
Qed.

(** X25: when a request was answered with success and every image of the
    answer carries its data, and the cache held fewer than 20 records
    before, then the same request, handled again, gets the same answer from
    the cache: no network call is made and nothing changes. *)
Theorem repeated_request_is_served_from_cache
    (r : result pyval) (w w1 : world) (a : envelope) :
  fetch_image requests_get stdout_write r w = (Ok a, w1) ->
  success a = true ->
  Forall (fun img => Out.data img <> "") (images a) ->
  (size (image_cache w) < 20)%nat ->
  fetch_image requests_get stdout_write r w1 = (Ok a, w1).
Proof.
  intros H Hs Hdata Hlt.
  destruct (fetch_image_selection r) as [[msg H1]|[H1|(e & He & H1)]].
  - rewrite H1 in H. by injection H as <- <-.
  - rewrite H1 in H. injection H as <- <-. apply H1.
  - rewrite H1 in H.
    destruct (download_image requests_get stdout_write (url e) w)
      as [[d|x] w'] eqn:Hd; injection H as <- <-; [|done].
    apply List.Forall_cons_iff in Hdata as [Hne _]. cbn in Hne.
    destruct d as [v|]; [|done].
    rewrite H1, (download_image_hit requests_get stdout_write (url e) w' v); [done|].
    by apply (fetched_then_cached _ w).
Qed.

End HandlerMore.

(** ** The further theorems at concrete inputs *)

Section MoreExamples.
Import Str StrFacts Scenario.

Lemma photosynthesis_matches_no_rule : no_query_rule "photosynthesis".
Proof.
  unfold no_query_rule. repeat split; try (apply not_ci; reflexivity).
  intros [H _]. revert H. apply not_ci; reflexivity.
Qed.

Lemma juliet_without_romeo_witness :
  find_relevant_images (PyStr "Shakespeare's JULIET") (PyStr "astronomy")
  = Ok [romeo_juliet_waterhouse].
Proof.
  apply juliet_without_romeo.
  - exists "Shakespeare's ", "JULIET", "".
    split; [reflexivity | vm_compute; intuition].
  - apply not_ci; reflexivity.
  - apply not_ci; reflexivity.
Defined.

Lemma later_rules_witness :
  find_relevant_images (PyStr "Planets and their DNA") PyNone = Ok [solar_system].
Proof.
  apply (proj1 (proj2 (later_rules_in_order "Planets and their DNA" PyNone
                         ltac:(apply not_ci; reflexivity)
                         ltac:(apply not_ci; reflexivity)))).
  - apply not_ci; reflexivity.
  - right. exists "", "Planet", "s and their DNA".
    split; [reflexivity | vm_compute; intuition].
Defined.

Lemma subject_unused_witness :
  find_relevant_images (PyStr "genetics") (PyList [PyInt 1])
  = find_relevant_images (PyStr "genetics") PyNone.
Proof.
  apply subject_unused_when_query_matches.
  do 7 right. exists "", "genetic", "s".
  split; [reflexivity | vm_compute; intuition].
Defined.

Lemma query_must_be_a_string_witness :
  find_relevant_images (PyInt 5) PyNone = Raise (AttributeError (PyInt 5) "lower").
Proof. apply query_must_be_a_string. reflexivity. Defined.

Lemma subject_of_another_type_witness :
  find_relevant_images (PyStr "photosynthesis") (PyInt 3)
  = Raise (AttributeError (PyInt 3) "lower") /\
  find_relevant_images (PyStr "photosynthesis") (PyInt 0)
  = Ok [shakespeare_portrait].
Proof.
  split.
  - apply (proj1 (subject_of_another_type "photosynthesis" (PyInt 3)
                    photosynthesis_matches_no_rule)); reflexivity.
  - apply (proj2 (subject_of_another_type "photosynthesis" (PyInt 0)
                    photosynthesis_matches_no_rule)); reflexivity.
Defined.

Lemma resolver_result_witness :
  exists e, [solar_system] = [e] /\ In e (map snd EDUCATIONAL_IMAGES).
Proof.
  apply (resolver_result_is_one_entry (PyStr "") (PyStr "Physics")). reflexivity.
Defined.

Lemma cache_hit_witness :
  download_image unreachable accepting (location 0)
    (snd (download_image serving accepting (location 0) startup))
  = (Ok (Some "YWJj"), snd (download_image serving accepting (location 0) startup)).
Proof. apply cache_hit_returns_stored. vm_compute. reflexivity. Defined.


Lemma cache_records_witness :
  exists u, In u (net_log (run serving accepting [CallDownload (location 0)]))
            /\ cache_key (location 0) = cache_key u.
Proof.
  apply cache_records_come_from_fetches. vm_compute. eauto.
Defined.


Lemma image_has_data_or_url_witness :
  (Out.data (image_result shakespeare_portrait None) <> "" /\
   Out.url (image_result shakespeare_portrait None) = "") \/
  (Out.data (image_result shakespeare_portrait None) = "" /\
   In (Out.url (image_result shakespeare_portrait None)) catalog_urls /\
   Out.url (image_result shakespeare_portrait None) <> "").
Proof.
  apply (image_has_data_or_url unreachable accepting
           (body [("query", PyStr "the bard")])
           startup
           (snd (fetch_image unreachable accepting (body [("query", PyStr "the bard")]) startup))
           (answer [image_result shakespeare_portrait None])).
  - vm_compute. reflexivity.
  - left. reflexivity.
Defined.

Lemma one_image_witness :
  exists e,
    find_relevant_images (PyStr "solar system") (opt_str None) = Ok [e] /\
    (forall d w',
       download_image serving accepting (url e) startup = (Ok d, w') ->
       fetch_image serving accepting
         (Ok (PyDict [("query", PyStr "solar system"); ("count", PyInt 5)])) startup
       = (Ok (answer [image_result e d]), w')) /\
    (forall x w',
       download_image serving accepting (url e) startup = (Raise x, w') ->
       fetch_image serving accepting
         (Ok (PyDict [("query", PyStr "solar system"); ("count", PyInt 5)])) startup
       = (Ok (failure (exn_str x)), w')).
Proof.
  apply (one_image_for_positive_count serving accepting _ (PyInt 5)).
  - reflexivity.
  - reflexivity.
  - reflexivity.
  - right. right. exists 5. split; [reflexivity | lia].
Defined.

Lemma count_of_another_type_witness :
  fetch_image serving accepting
    (body [("query", PyStr "dna"); ("subject", PyNone); ("count", PyStr "2")]) startup
  = (Ok (failure "slice indices must be integers or None or have an __index__ method"),
     startup).
Proof.
  apply (count_of_another_type serving accepting _ (PyStr "2") "dna" None).
  - reflexivity.
  - reflexivity.
  - reflexivity.
  - exact I.
Defined.

Lemma repeated_request_witness :
  fetch_image serving accepting (body [("query", PyStr "shakespeare")])
    (snd (fetch_image serving accepting (body [("query", PyStr "shakespeare")]) startup))
  = (Ok (answer [image_result shakespeare_portrait (Some "YWJj")]),
     snd (fetch_image serving accepting (body [("query", PyStr "shakespeare")]) startup)).
Proof.
  apply (repeated_request_is_served_from_cache serving accepting _ startup).
  - vm_compute. reflexivity.
  - reflexivity.
  - constructor; [discriminate | constructor].
  - vm_compute. lia.
Defined.

End MoreExamples.
